(** * Shallow embedding of the CHIP-8 interpreter core (src/Chip8.cpp, src/Chip8.h)

    The machine state of class [Chip8] becomes a record; each C array is a
    [list Z] of the declared size and each fixed-width integer a [Z] whose
    wrap-around is written out ([u8], [u16]).  Every handler is a function
    [chip8 -> outcome chip8]: an array access outside the declared bounds is
    undefined behaviour in C++, and it is modelled as the outcome
    [OutOfBounds arr i] naming the array and the index that was used.

    Two typos of the source are modelled as their evident intent:
    line 188 of Chip8.cpp reads [uint16_t sum - registers[Vx] + registers[Vy];]
    (an initialisation [sum = ...]), and line 324 names [xPod] for [xPos]. *)

From Stdlib Require Import ZArith Lia.
From stdpp Require Import base list decidable.

Open Scope Z_scope.

Module Chip8.

(** ** Outcomes and arrays *)

Inductive array : Type :=
| RegistersA | MemoryA | StackA | KeypadA | VideoA | BufferA.

Inductive outcome (A : Type) : Type :=
| Ok (a : A)
| OutOfBounds (arr : array) (i : Z).
Arguments Ok {A} a.
Arguments OutOfBounds {A} arr i.

Definition obind {A B} (m : outcome A) (k : A -> outcome B) : outcome B :=
  match m with
  | Ok a => k a
  | OutOfBounds arr i => OutOfBounds arr i
  end.

Notation "'let*' x ':=' m 'in' k" := (obind m (fun x => k))
  (at level 200, x name, m at level 100, k at level 200).

(** [arr[i]] as an rvalue. *)
Definition rd (arr : array) (l : list Z) (i : Z) : outcome Z :=
  if i <? 0 then OutOfBounds arr i
  else match l !! Z.to_nat i with
       | Some v => Ok v
       | None => OutOfBounds arr i
       end.

(** [arr[i] = v]. *)
Definition wr (arr : array) (l : list Z) (i v : Z) : outcome (list Z) :=
  if (0 <=? i) && (i <? Z.of_nat (length l)) then Ok (<[Z.to_nat i := v]> l)
  else OutOfBounds arr i.

(** Conversions to the unsigned C types. *)
Definition u8 (z : Z) : Z := z mod 256.
Definition u16 (z : Z) : Z := z mod 65536.

(** ** Machine state (Chip8.h) *)

Record chip8 : Type := mkChip8 {
  registers : list Z;   (* uint8_t registers[16] *)
  memory : list Z;      (* uint8_t memory[4096] *)
  index : Z;            (* uint16_t index *)
  pc : Z;               (* uint16_t pc *)
  stack : list Z;       (* uint16_t stack[16] *)
  sp : Z;               (* uint8_t sp *)
  delayTimer : Z;       (* uint8_t delayTimer *)
  soundTimer : Z;       (* uint8_t soundTimer *)
  keypad : list Z;      (* uint8_t keypad[16] *)
  video : list Z;       (* uint32_t video[64*32] *)
  opcode : Z            (* uint16_t opcode *)
}.

Definition set_registers (s : chip8) (r : list Z) : chip8 :=
  mkChip8 r (memory s) (index s) (pc s) (stack s) (sp s) (delayTimer s)
    (soundTimer s) (keypad s) (video s) (opcode s).
Definition set_memory (s : chip8) (m : list Z) : chip8 :=
  mkChip8 (registers s) m (index s) (pc s) (stack s) (sp s) (delayTimer s)
    (soundTimer s) (keypad s) (video s) (opcode s).
Definition set_pc (s : chip8) (p : Z) : chip8 :=
  mkChip8 (registers s) (memory s) (index s) p (stack s) (sp s) (delayTimer s)
    (soundTimer s) (keypad s) (video s) (opcode s).
Definition set_stack (s : chip8) (st : list Z) : chip8 :=
  mkChip8 (registers s) (memory s) (index s) (pc s) st (sp s) (delayTimer s)
    (soundTimer s) (keypad s) (video s) (opcode s).
Definition set_sp (s : chip8) (p : Z) : chip8 :=
  mkChip8 (registers s) (memory s) (index s) (pc s) (stack s) p (delayTimer s)
    (soundTimer s) (keypad s) (video s) (opcode s).
Definition set_video (s : chip8) (v : list Z) : chip8 :=
  mkChip8 (registers s) (memory s) (index s) (pc s) (stack s) (sp s) (delayTimer s)
    (soundTimer s) (keypad s) v (opcode s).
Definition set_index (s : chip8) (i : Z) : chip8 :=
  mkChip8 (registers s) (memory s) i (pc s) (stack s) (sp s) (delayTimer s)
    (soundTimer s) (keypad s) (video s) (opcode s).
Definition set_keypad (s : chip8) (k : list Z) : chip8 :=
  mkChip8 (registers s) (memory s) (index s) (pc s) (stack s) (sp s) (delayTimer s)
    (soundTimer s) k (video s) (opcode s).
Definition set_opcode (s : chip8) (op : Z) : chip8 :=
  mkChip8 (registers s) (memory s) (index s) (pc s) (stack s) (sp s) (delayTimer s)
    (soundTimer s) (keypad s) (video s) op.

(** [registers[i] = v] on a [uint8_t] element. *)
Definition set_reg (s : chip8) (i v : Z) : outcome chip8 :=
  let* r := wr RegistersA (registers s) i (u8 v) in Ok (set_registers s r).

(** [for (i = 0; i < n; ++i) body] *)
Definition range (n : Z) : list Z := map Z.of_nat (seq 0 (Z.to_nat n)).

Fixpoint forM {A} (l : list A) (f : A -> chip8 -> outcome chip8) (s : chip8)
  : outcome chip8 :=
  match l with
  | [] => Ok s
  | a :: l' => let* s' := f a s in forM l' f s'
  end.

Definition START_ADDRESS : Z := 0x200.
Definition FONTSET_START_ADDRESS : Z := 0x50.
Definition FONTSET_SIZE : Z := 80.
Definition VIDEO_WIDTH : Z := 64.
Definition VIDEO_HEIGHT : Z := 32.

Definition fontset : list Z :=
  [0xF0; 0x90; 0x90; 0x90; 0xF0; 0x20; 0x60; 0x20; 0x20; 0x70;
   0xF0; 0x10; 0xF0; 0x80; 0xF0; 0xF0; 0x10; 0xF0; 0x10; 0xF0;
   0x90; 0x90; 0xF0; 0x10; 0x10; 0xF0; 0x80; 0xF0; 0x10; 0xF0;
   0xF0; 0x80; 0xF0; 0x90; 0xF0; 0xF0; 0x10; 0x20; 0x40; 0x40;
   0xF0; 0x90; 0xF0; 0x90; 0xF0; 0xF0; 0x90; 0xF0; 0x10; 0xF0;
   0xF0; 0x90; 0xF0; 0x90; 0x90; 0xE0; 0x90; 0xE0; 0x90; 0xE0;
   0xF0; 0x80; 0x80; 0x80; 0xF0; 0xE0; 0x90; 0x90; 0x90; 0xE0;
   0xF0; 0x80; 0xF0; 0x80; 0xF0; 0xF0; 0x80; 0xF0; 0x80; 0x80].

(** The zero-initialised members ([{}]); [opcode] has no initialiser and is
    written by the fetch before any handler runs, it is taken as 0 here. *)
Definition zeroed : chip8 :=
  mkChip8 (repeat 0 16) (repeat 0 4096) 0 0 (repeat 0 16) 0 0 0
    (repeat 0 16) (repeat 0 2048) 0.

(** [Chip8::Chip8()] in Chip8.cpp. *)
Definition Chip8_init : outcome chip8 :=
  let s := set_pc zeroed START_ADDRESS in
  forM (range FONTSET_SIZE) (fun i s =>
    let* f := rd BufferA fontset i in
    let* m := wr MemoryA (memory s) (FONTSET_START_ADDRESS + i) f in
    Ok (set_memory s m)) s.

(** [Chip8::LoadROM]: [file] is [None] when the file cannot be opened, and
    otherwise the file contents, read into [buffer] of [size] bytes. *)
Definition LoadROM (file : option (list Z)) (s : chip8) : outcome chip8 :=
  match file with
  | None => Ok s
  | Some buffer =>
      let size := Z.of_nat (length buffer) in
      forM (range size) (fun i s =>
        let* b := rd BufferA buffer i in
        let* m := wr MemoryA (memory s) (START_ADDRESS + i) (u8 b) in
        Ok (set_memory s m)) s
  end.

(** ** Opcode handlers (Chip8.cpp) *)

(** [Chip8::OP_00EE]: [--sp; pc = stack[sp];] *)
Definition OP_00EE (s : chip8) : outcome chip8 :=
  let s := set_sp s (u8 (sp s - 1)) in
  let* ret := rd StackA (stack s) (sp s) in
  Ok (set_pc s ret).

(** [Chip8::OP_2nnn]: [stack[sp] = pc; ++sp; pc = address;] *)
Definition OP_2nnn (s : chip8) : outcome chip8 :=
  let address := Z.land (opcode s) 0x0FFF in
  let* st := wr StackA (stack s) (sp s) (pc s) in
  let s := set_stack s st in
  let s := set_sp s (u8 (sp s + 1)) in
  Ok (set_pc s address).

(** [Chip8::OP_3xkk] *)
Definition OP_3xkk (s : chip8) : outcome chip8 :=
  let Vx := Z.shiftr (Z.land (opcode s) 0x0F00) 8 in
  let byte := Z.land (opcode s) 0x00FF in
  let* r := rd RegistersA (registers s) Vx in
  if r =? byte then Ok (set_pc s (u16 (pc s + 2))) else Ok s.

(** [Chip8::OP_4xkk]: the immediate is taken as [opcode & 0x00Fu]. *)
Definition OP_4xkk (s : chip8) : outcome chip8 :=
  let Vx := Z.shiftr (Z.land (opcode s) 0x0F00) 8 in
  let byte := Z.land (opcode s) 0x00F in
  let* r := rd RegistersA (registers s) Vx in
  if negb (r =? byte) then Ok (set_pc s (u16 (pc s + 2))) else Ok s.

(** [Chip8::OP_8xy4] *)
Definition OP_8xy4 (s : chip8) : outcome chip8 :=
  let Vx := Z.shiftr (Z.land (opcode s) 0x0F00) 8 in
  let Vy := Z.shiftr (Z.land (opcode s) 0x00F0) 4 in
  let* a := rd RegistersA (registers s) Vx in
  let* b := rd RegistersA (registers s) Vy in
  let sum := u16 (a + b) in
  let* s := set_reg s 15 (if 255 <? sum then 1 else 0) in
  set_reg s Vx (Z.land sum 0xFF).

(** [Chip8::OP_8xy5]: the flag is written first, then
    [registers[Vx] -= registers[Vy]] reads both registers again. *)
Definition OP_8xy5 (s : chip8) : outcome chip8 :=
  let Vx := Z.shiftr (Z.land (opcode s) 0x0F00) 8 in
  let Vy := Z.shiftr (Z.land (opcode s) 0x00F0) 4 in
  let* a := rd RegistersA (registers s) Vx in
  let* b := rd RegistersA (registers s) Vy in
  let* s := set_reg s 15 (if b <? a then 1 else 0) in
  let* a' := rd RegistersA (registers s) Vx in
  let* b' := rd RegistersA (registers s) Vy in
  set_reg s Vx (a' - b').

(** The body of [if (spritePixel) { ... }] in [Chip8::OP_Dxyn], on the cell
    [k] that [screenPixel] points to. *)
Definition toggle_pixel (k : Z) (s : chip8) : outcome chip8 :=
  let* px := rd VideoA (video s) k in
  let* s := (if px =? 0xFFFFFFFF then set_reg s 15 1 else Ok s) in
  let* v := wr VideoA (video s) k (Z.lxor px 0xFFFFFFFF) in
  Ok (set_video s v).

(** One iteration of the inner [col] loop of [Chip8::OP_Dxyn].  The cell is
    read and written only when the sprite pixel is on. *)
Definition draw_pixel (xPos yPos row spriteByte col : Z) (s : chip8)
  : outcome chip8 :=
  let spritePixel := Z.land spriteByte (Z.shiftr 0x80 col) in
  let k := (yPos + row) * VIDEO_WIDTH + (xPos + col) in
  if spritePixel =? 0 then Ok s else toggle_pixel k s.

(** One iteration of the outer [row] loop of [Chip8::OP_Dxyn]. *)
Definition draw_row (xPos yPos row : Z) (s : chip8) : outcome chip8 :=
  let* spriteByte := rd MemoryA (memory s) (index s + row) in
  forM (range 8) (draw_pixel xPos yPos row spriteByte) s.

(** [Chip8::OP_Dxyn] *)
Definition OP_Dxyn (s : chip8) : outcome chip8 :=
  let Vx := Z.shiftr (Z.land (opcode s) 0x0F00) 8 in
  let Vy := Z.shiftr (Z.land (opcode s) 0x00F0) 4 in
  let height := Z.land (opcode s) 0x000F in
  let* rx := rd RegistersA (registers s) Vx in
  let* ry := rd RegistersA (registers s) Vy in
  let xPos := rx mod VIDEO_WIDTH in
  let yPos := ry mod VIDEO_HEIGHT in
  let* s := set_reg s 15 0 in
  forM (range height) (draw_row xPos yPos) s.

(** The [if (keypad[0]) ... else if (keypad[15]) ... else pc -= 2;] chain of
    [Chip8::OP_Fx0A], one link per key of [keys]. *)
Fixpoint wait_key (Vx : Z) (keys : list Z) (s : chip8) : outcome chip8 :=
  match keys with
  | [] => Ok (set_pc s (u16 (pc s - 2)))
  | k :: rest =>
      let* pressed := rd KeypadA (keypad s) k in
      if pressed =? 0 then wait_key Vx rest s else set_reg s Vx k
  end.

(** [Chip8::OP_Fx0A] *)
Definition OP_Fx0A (s : chip8) : outcome chip8 :=
  let Vx := Z.shiftr (Z.land (opcode s) 0x0F00) 8 in
  wait_key Vx (range 16) s.

(** [Chip8::OP_Fx33] *)
Definition OP_Fx33 (s : chip8) : outcome chip8 :=
  let Vx := Z.shiftr (Z.land (opcode s) 0x0F00) 8 in
  let* value := rd RegistersA (registers s) Vx in
  let* m := wr MemoryA (memory s) (index s + 2) (value mod 10) in
  let value := value / 10 in
  let* m := wr MemoryA m (index s + 1) (value mod 10) in
  let value := value / 10 in
  let* m := wr MemoryA m (index s) (value mod 10) in
  Ok (set_memory s m).

(** [Chip8::OP_Fx55]: [for (uint8_t i = 0; i <= Vx; ++i)
    memory[index + i] = registers[i];] *)
Definition OP_Fx55 (s : chip8) : outcome chip8 :=
  let Vx := Z.shiftr (Z.land (opcode s) 0x0F00) 8 in
  forM (range (Vx + 1)) (fun i s =>
    let* r := rd RegistersA (registers s) i in
    let* m := wr MemoryA (memory s) (index s + i) r in
    Ok (set_memory s m)) s.

(** [Chip8::OP_Fx65]: [for (uint8_t i = 0; i <= Vx; ++i)
    registers[i] = memory[index + i];] *)
Definition OP_Fx65 (s : chip8) : outcome chip8 :=
  let Vx := Z.shiftr (Z.land (opcode s) 0x0F00) 8 in
  forM (range (Vx + 1)) (fun i s =>
    let* b := rd MemoryA (memory s) (index s + i) in
    set_reg s i b) s.

(** ** The other opcode handlers (Chip8.cpp) *)

Definition set_delayTimer (s : chip8) (t : Z) : chip8 :=
  mkChip8 (registers s) (memory s) (index s) (pc s) (stack s) (sp s) t
    (soundTimer s) (keypad s) (video s) (opcode s).
Definition set_soundTimer (s : chip8) (t : Z) : chip8 :=
  mkChip8 (registers s) (memory s) (index s) (pc s) (stack s) (sp s) (delayTimer s)
    t (keypad s) (video s) (opcode s).

(** [Chip8::OP_00E0]: [memset(video, 0, sizeof(video));] *)
Definition OP_00E0 (s : chip8) : outcome chip8 :=
  Ok (set_video s (repeat 0 (length (video s)))).

(** [Chip8::OP_1nnn] *)
Definition OP_1nnn (s : chip8) : outcome chip8 :=
  let address := Z.land (opcode s) 0x0FFF in
  Ok (set_pc s address).

(** [Chip8::OP_5xy0] *)
Definition OP_5xy0 (s : chip8) : outcome chip8 :=
  let Vx := Z.shiftr (Z.land (opcode s) 0x0F00) 8 in
  let Vy := Z.shiftr (Z.land (opcode s) 0x00F0) 4 in
  let* a := rd RegistersA (registers s) Vx in
  let* b := rd RegistersA (registers s) Vy in
  if a =? b then Ok (set_pc s (u16 (pc s + 2))) else Ok s.

(** [Chip8::OP_6xkk] *)
Definition OP_6xkk (s : chip8) : outcome chip8 :=
  let Vx := Z.shiftr (Z.land (opcode s) 0x0F00) 8 in
  let byte := Z.land (opcode s) 0x00FF in
  set_reg s Vx byte.

(** [Chip8::OP_7xkk]: [registers[Vx] += byte;] *)
Definition OP_7xkk (s : chip8) : outcome chip8 :=
  let Vx := Z.shiftr (Z.land (opcode s) 0x0F00) 8 in
  let byte := Z.land (opcode s) 0x00FF in
  let* a := rd RegistersA (registers s) Vx in
  set_reg s Vx (a + byte).

(** [Chip8::OP_8xy0] *)
Definition OP_8xy0 (s : chip8) : outcome chip8 :=
  let Vx := Z.shiftr (Z.land (opcode s) 0x0F00) 8 in
  let Vy := Z.shiftr (Z.land (opcode s) 0x00F0) 4 in
  let* b := rd RegistersA (registers s) Vy in
  set_reg s Vx b.

(** [Chip8::OP_8xy1]: [registers[Vx] |= registers[Vy];] *)
Definition OP_8xy1 (s : chip8) : outcome chip8 :=
  let Vx := Z.shiftr (Z.land (opcode s) 0x0F00) 8 in
  let Vy := Z.shiftr (Z.land (opcode s) 0x00F0) 4 in
  let* a := rd RegistersA (registers s) Vx in
  let* b := rd RegistersA (registers s) Vy in
  set_reg s Vx (Z.lor a b).

(** [Chip8::OP_8xy2]: [registers[Vx] &= registers[Vy];] *)
Definition OP_8xy2 (s : chip8) : outcome chip8 :=
  let Vx := Z.shiftr (Z.land (opcode s) 0x0F00) 8 in
  let Vy := Z.shiftr (Z.land (opcode s) 0x00F0) 4 in
  let* a := rd RegistersA (registers s) Vx in
  let* b := rd RegistersA (registers s) Vy in
  set_reg s Vx (Z.land a b).

(** [Chip8::OP_8xy3]: [registers[Vx] ^= registers[Vy];] *)
Definition OP_8xy3 (s : chip8) : outcome chip8 :=
  let Vx := Z.shiftr (Z.land (opcode s) 0x0F00) 8 in
  let Vy := Z.shiftr (Z.land (opcode s) 0x00F0) 4 in
  let* a := rd RegistersA (registers s) Vx in
  let* b := rd RegistersA (registers s) Vy in
  set_reg s Vx (Z.lxor a b).

(** [Chip8::OP_8xy6]: [registers[0xF] = (registers[Vx] & 0x1u);] then
    [registers[Vx] >>= 1;] reads [Vx] again. *)
Definition OP_8xy6 (s : chip8) : outcome chip8 :=
  let Vx := Z.shiftr (Z.land (opcode s) 0x0F00) 8 in
  let* a := rd RegistersA (registers s) Vx in
  let* s := set_reg s 15 (Z.land a 0x1) in
  let* a' := rd RegistersA (registers s) Vx in
  set_reg s Vx (Z.shiftr a' 1).

(** [Chip8::OP_8xy7]: the flag is written first, then
    [registers[Vx] = registers[Vy] - registers[Vx];] reads both again. *)
Definition OP_8xy7 (s : chip8) : outcome chip8 :=
  let Vx := Z.shiftr (Z.land (opcode s) 0x0F00) 8 in
  let Vy := Z.shiftr (Z.land (opcode s) 0x00F0) 4 in
  let* a := rd RegistersA (registers s) Vx in
  let* b := rd RegistersA (registers s) Vy in
  let* s := set_reg s 15 (if a <? b then 1 else 0) in
  let* b' := rd RegistersA (registers s) Vy in
  let* a' := rd RegistersA (registers s) Vx in
  set_reg s Vx (b' - a').

(** [Chip8::OP_8xyE]: [registers[0xF] = (registers[Vx] & 0x80u) >> 7u;] then
    [registers[Vx] <<= 1;] reads [Vx] again. *)
Definition OP_8xyE (s : chip8) : outcome chip8 :=
  let Vx := Z.shiftr (Z.land (opcode s) 0x0F00) 8 in
  let* a := rd RegistersA (registers s) Vx in
  let* s := set_reg s 15 (Z.shiftr (Z.land a 0x80) 7) in
  let* a' := rd RegistersA (registers s) Vx in
  set_reg s Vx (Z.shiftl a' 1).

(** [Chip8::OP_9xy0] *)
Definition OP_9xy0 (s : chip8) : outcome chip8 :=
  let Vx := Z.shiftr (Z.land (opcode s) 0x0F00) 8 in
  let Vy := Z.shiftr (Z.land (opcode s) 0x00F0) 4 in
  let* a := rd RegistersA (registers s) Vx in
  let* b := rd RegistersA (registers s) Vy in
  if negb (a =? b) then Ok (set_pc s (u16 (pc s + 2))) else Ok s.

(** [Chip8::OP_Annn] *)
Definition OP_Annn (s : chip8) : outcome chip8 :=
  let address := Z.land (opcode s) 0x0FFF in
  Ok (set_index s address).

(** [Chip8::OP_Bnnn]: [pc = registers[0] + address;] *)
Definition OP_Bnnn (s : chip8) : outcome chip8 :=
  let address := Z.land (opcode s) 0x0FFF in
  let* r := rd RegistersA (registers s) 0 in
  Ok (set_pc s (u16 (r + address))).

(** [Chip8::OP_Cxkk]: [rnd] is the value of [randByte(randGen)], a draw of
    [std::uniform_int_distribution<uint8_t>(0, 255U)]. *)
Definition OP_Cxkk (rnd : Z) (s : chip8) : outcome chip8 :=
  let Vx := Z.shiftr (Z.land (opcode s) 0x0F00) 8 in
  let byte := Z.land (opcode s) 0x00FF in
  set_reg s Vx (Z.land rnd byte).

(** [Chip8::OP_Ex9E]: [if (keypad[key]) pc += 2;] with [key = registers[Vx]]. *)
Definition OP_Ex9E (s : chip8) : outcome chip8 :=
  let Vx := Z.shiftr (Z.land (opcode s) 0x0F00) 8 in
  let* key := rd RegistersA (registers s) Vx in
  let* pressed := rd KeypadA (keypad s) key in
  if negb (pressed =? 0) then Ok (set_pc s (u16 (pc s + 2))) else Ok s.

(** [Chip8::OP_Exa1] (declared as [OP_ExA1] in Chip8.h). *)
Definition OP_Exa1 (s : chip8) : outcome chip8 :=
  let Vx := Z.shiftr (Z.land (opcode s) 0x0F00) 8 in
  let* key := rd RegistersA (registers s) Vx in
  let* pressed := rd KeypadA (keypad s) key in
  if pressed =? 0 then Ok (set_pc s (u16 (pc s + 2))) else Ok s.

(** [Chip8::OP_Fx07] *)
Definition OP_Fx07 (s : chip8) : outcome chip8 :=
  let Vx := Z.shiftr (Z.land (opcode s) 0x0F00) 8 in
  set_reg s Vx (delayTimer s).

(** [Chip8::OP_Fx15] *)
Definition OP_Fx15 (s : chip8) : outcome chip8 :=
  let Vx := Z.shiftr (Z.land (opcode s) 0x0F00) 8 in
  let* r := rd RegistersA (registers s) Vx in
  Ok (set_delayTimer s r).

(** [Chip8::OP_Fx18] *)
Definition OP_Fx18 (s : chip8) : outcome chip8 :=
  let Vx := Z.shiftr (Z.land (opcode s) 0x0F00) 8 in
  let* r := rd RegistersA (registers s) Vx in
  Ok (set_soundTimer s r).

(** [Chip8::OP_FX1E] (declared as [OP_Fx1E] in Chip8.h): [index += registers[Vx];] *)
Definition OP_FX1E (s : chip8) : outcome chip8 :=
  let Vx := Z.shiftr (Z.land (opcode s) 0x0F00) 8 in
  let* r := rd RegistersA (registers s) Vx in
  Ok (set_index s (u16 (index s + r))).

(** [Chip8::OP_Fx29]: [index = FONTSET_START_ADDRESS + (5 * digit);] *)
Definition OP_Fx29 (s : chip8) : outcome chip8 :=
  let Vx := Z.shiftr (Z.land (opcode s) 0x0F00) 8 in
  let* digit := rd RegistersA (registers s) Vx in
  Ok (set_index s (u16 (FONTSET_START_ADDRESS + 5 * digit))).

(** ** Cells toggled by a draw

    These definitions do not come from the source: they name the cells that
    [OP_Dxyn] visits, to state its effect as one list of toggles. *)

(** The cell of sprite pixel [(row, col)]: [&video[(yPos + row) * VIDEO_WIDTH + (xPos + col)]]. *)
Definition cell (xPos yPos row col : Z) : Z := (yPos + row) * VIDEO_WIDTH + (xPos + col).

(** The columns [col] whose bit [0x80 >> col] of [spriteByte] is on. *)
Definition sprite_cols (spriteByte : Z) : list Z :=
  List.filter (fun col => negb (Z.land spriteByte (Z.shiftr 0x80 col) =? 0)) (range 8).

Definition sprite_cells (xPos yPos row spriteByte : Z) : list Z :=
  map (cell xPos yPos row) (sprite_cols spriteByte).

(** All cells toggled, row by row, for sprite rows [rows] read at [idx]. *)
Definition draw_cells (mem : list Z) (idx xPos yPos : Z) (rows : list Z) : list Z :=
  flat_map (fun row => sprite_cells xPos yPos row (nth (Z.to_nat (idx + row)) mem 0)) rows.

(** ** Well-formed states: the arrays have their declared sizes and every
    field holds a value of its C type. *)

Definition is_u8 (v : Z) : Prop := 0 <= v < 256.

Definition wf (s : chip8) : Prop :=
  length (registers s) = 16%nat /\ length (memory s) = 4096%nat /\
  length (stack s) = 16%nat /\ length (keypad s) = 16%nat /\
  length (video s) = 2048%nat /\
  Forall is_u8 (registers s) /\ Forall is_u8 (memory s) /\
  Forall is_u8 (keypad s) /\
  0 <= index s < 65536 /\ 0 <= pc s < 65536 /\ 0 <= sp s < 256 /\
  0 <= opcode s < 65536.

#[global] Instance is_u8_dec v : Decision (is_u8 v).
Proof. unfold is_u8. apply _. Defined.
#[global] Instance wf_dec s : Decision (wf s).
Proof. unfold wf. apply _. Defined.

(** Operand fields of the instruction word, as every handler decodes them. *)
Definition op_x (op : Z) : Z := Z.shiftr (Z.land op 0x0F00) 8.
Definition op_y (op : Z) : Z := Z.shiftr (Z.land op 0x00F0) 4.

(** The state right after the constructor, with [opcode] set. *)
Definition boot (op : Z) : chip8 :=
  match Chip8_init with Ok s => set_opcode s op | OutOfBounds _ _ => zeroed end.

(** ** Concrete states used to exercise the handlers *)

(** [boot op] with the registers of [rs] set. *)
Definition with_regs (s : chip8) (rs : list (nat * Z)) : chip8 :=
  set_registers s (foldr (fun iv r => <[fst iv := snd iv]> r) (registers s) rs).

Definition s_8014 : chip8 := with_regs (boot 0x8014) [(0%nat, 200); (1%nat, 100)].
Definition s_8F04 : chip8 := with_regs (boot 0x8F04) [(15%nat, 200); (0%nat, 100)].
Definition s_8015 : chip8 := with_regs (boot 0x8015) [(0%nat, 3); (1%nat, 5)].
Definition s_8F05 : chip8 := with_regs (boot 0x8F05) [(15%nat, 5); (0%nat, 3)].
Definition s_4012 : chip8 := with_regs (boot 0x4012) [(0%nat, 0x12)].
Definition s_2300 : chip8 := boot 0x2300.
Definition s_00EE : chip8 := set_sp (set_stack (boot 0x00EE) (<[0%nat := 0x234]> (repeat 0 16))) 1.
Definition s_F033 : chip8 := set_index (with_regs (boot 0xF033) [(0%nat, 255)]) 0x300.
Definition s_F255 : chip8 :=
  set_index (with_regs (boot 0xF255) [(0%nat, 1); (1%nat, 2); (2%nat, 3)]) 0x300.
Definition s_F265 : chip8 := set_index (boot 0xF265) 0x50.
Definition s_F30A_idle : chip8 := set_pc (boot 0xF30A) 0x202.
Definition s_F30A_keys : chip8 :=
  set_keypad (set_pc (boot 0xF30A) 0x202) (<[9%nat := 1]> (<[5%nat := 1]> (repeat 0 16))).

(** Draws of five rows at (0, 0): from address 0, which holds zeros, and
    from the font glyph of the digit 0 at 0x50. *)
Definition s_D015 : chip8 := boot 0xD015.
Definition s_D015_font : chip8 := set_index (boot 0xD015) 0x50.

(** One row of the glyph byte 0xF0 at (63, 31) and at (63, 0). *)
Definition s_D011_corner : chip8 :=
  set_index (with_regs (boot 0xD011) [(0%nat, 63); (1%nat, 31)]) 0x50.
Definition s_D011_edge : chip8 :=
  set_index (with_regs (boot 0xD011) [(0%nat, 63); (1%nat, 0)]) 0x50.

(** ** Further concrete states *)

(** The state that [Chip8_init] builds. *)
Definition s_init : chip8 :=
  set_memory (set_pc zeroed START_ADDRESS)
    (repeat 0 0x50 ++ fontset ++ repeat 0 (4096 - 0xA0)).

Definition s_8123 : chip8 := with_regs (boot 0x8123) [(1%nat, 0x0C); (2%nat, 0x0A)].
Definition s_8106 : chip8 := with_regs (boot 0x8106) [(1%nat, 5)].
Definition s_810E : chip8 := with_regs (boot 0x810E) [(1%nat, 0x81)].
Definition s_8127 : chip8 := with_regs (boot 0x8127) [(1%nat, 3); (2%nat, 5)].
Definition s_C10F : chip8 := boot 0xC10F.
Definition s_2300_full : chip8 := set_sp (boot 0x2300) 16.
Definition s_00EE_empty : chip8 := boot 0x00EE.
Definition s_5120 : chip8 := with_regs (boot 0x5120) [(1%nat, 7); (2%nat, 7)].
Definition s_E19E : chip8 :=
  with_regs (set_keypad (boot 0xE19E) (<[4%nat := 1]> (repeat 0 16))) [(1%nat, 4)].
Definition s_F115 : chip8 := with_regs (boot 0xF115) [(1%nat, 42)].
Definition s_F033_top : chip8 := set_index (boot 0xF033) 0xFFE.
Definition s_FF55_top : chip8 := set_index (boot 0xFF55) 0xFF8.
Definition s_FF65_top : chip8 := set_index (boot 0xFF65) 0xFF8.
Definition s_F129 : chip8 := with_regs (boot 0xF129) [(1%nat, 7)].
Definition s_B1FF : chip8 :=
  with_regs (set_index (boot 0xB1FF) 0xFFF0) [(0%nat, 0xFF); (1%nat, 0x20)].

End Chip8.

Import Chip8.

(** ** Access lemmas *)

Lemma rd_lookup (arr : array) (l : list Z) (i v : Z) :
  0 <= i -> l !! Z.to_nat i = Some v -> rd arr l i = Ok v.
Proof. intros Hi Hl. unfold rd. destruct (Z.ltb_spec i 0); [lia|]. by rewrite Hl. Qed.

Lemma rd_in (arr : array) (l : list Z) (i : Z) :
  0 <= i < Z.of_nat (length l) ->
  exists v, l !! Z.to_nat i = Some v /\ rd arr l i = Ok v.
Proof.
  intros Hi. destruct (lookup_lt_is_Some_2 l (Z.to_nat i)) as [v Hv]; [lia|].
  exists v. split; [done|]. by apply rd_lookup; [lia|].
Qed.

Lemma wr_insert (arr : array) (l : list Z) (i v : Z) :
  0 <= i < Z.of_nat (length l) -> wr arr l i v = Ok (<[Z.to_nat i := v]> l).
Proof.
  intros Hi. unfold wr.
  destruct (Z.leb_spec 0 i), (Z.ltb_spec i (Z.of_nat (length l))); simpl; done || lia.
Qed.

Lemma wr_out (arr : array) (l : list Z) (i v : Z) :
  Z.of_nat (length l) <= i -> wr arr l i v = OutOfBounds arr i.
Proof.
  intros Hi. unfold wr.
  destruct (Z.ltb_spec i (Z.of_nat (length l))); [lia|]. by rewrite andb_false_r.
Qed.

Lemma set_reg_insert (s : chip8) (i v : Z) :
  0 <= i < Z.of_nat (length (registers s)) ->
  set_reg s i v = Ok (set_registers s (<[Z.to_nat i := u8 v]> (registers s))).
Proof. intros Hi. unfold set_reg. by rewrite wr_insert. Qed.

Lemma op_x_range (op : Z) : 0 <= op_x op < 16.
Proof.
  unfold op_x. rewrite Z.shiftr_land.
  change (Z.shiftr 0x0F00 8) with (Z.ones 4).
  rewrite Z.land_ones by lia. apply Z.mod_pos_bound. lia.
Qed.

Lemma op_y_range (op : Z) : 0 <= op_y op < 16.
Proof.
  unfold op_y. rewrite Z.shiftr_land.
  change (Z.shiftr 0x00F0 4) with (Z.ones 4).
  rewrite Z.land_ones by lia. apply Z.mod_pos_bound. lia.
Qed.

Lemma wf_reg_u8 (s : chip8) (i : nat) (v : Z) :
  wf s -> registers s !! i = Some v -> 0 <= v < 256.
Proof. intros (_ & _ & _ & _ & _ & Hr & _) Hv. exact (Forall_lookup_1 _ _ _ _ Hr Hv). Qed.

Lemma wf_mem_u8 (s : chip8) (i : nat) (v : Z) :
  wf s -> memory s !! i = Some v -> 0 <= v < 256.
Proof. intros (_ & _ & _ & _ & _ & _ & Hm & _) Hv. exact (Forall_lookup_1 _ _ _ _ Hm Hv). Qed.

Lemma u8_small (v : Z) : 0 <= v < 256 -> u8 v = v.
Proof. intros. unfold u8. by rewrite Z.mod_small. Qed.

Lemma land_ff (v : Z) : Z.land v 0xFF = v mod 256.
Proof. change 0xFF with (Z.ones 8). by rewrite Z.land_ones by lia. Qed.

Ltac lookup_simpl :=
  repeat first
    [ rewrite list_lookup_insert_eq by (rewrite ?length_insert; lia)
    | rewrite list_lookup_insert_ne by lia ].

(** ** C2: add with carry *)

(** C2 (amended): for 8-bit values [a] in [Vx] and [b] in [Vy], [OP_8xy4]
    with [x <> 15] leaves [VF = 1] iff [a + b > 255] and [Vx = (a + b) mod 256];
    with [x = 15] the sum is written last and [VF] ends as [(a + b) mod 256]. *)
Theorem OP_8xy4_carry (s : chip8) (a b : Z) :
  wf s ->
  registers s !! Z.to_nat (op_x (opcode s)) = Some a ->
  registers s !! Z.to_nat (op_y (opcode s)) = Some b ->
  exists s', OP_8xy4 s = Ok s' /\
    (op_x (opcode s) <> 15 ->
       registers s' !! 15%nat = Some (if 255 <? a + b then 1 else 0) /\
       registers s' !! Z.to_nat (op_x (opcode s)) = Some ((a + b) mod 256)) /\
    (op_x (opcode s) = 15 -> registers s' !! 15%nat = Some ((a + b) mod 256)).
Proof.
  intros Hwf Ha Hb.
  pose proof (wf_reg_u8 _ _ _ Hwf Ha). pose proof (wf_reg_u8 _ _ _ Hwf Hb).
  destruct Hwf as (Hr & _).
  pose proof (op_x_range (opcode s)). pose proof (op_y_range (opcode s)).
  unfold OP_8xy4. fold (op_x (opcode s)). fold (op_y (opcode s)).
  set (x := op_x (opcode s)) in *. set (y := op_y (opcode s)) in *.
  rewrite (rd_lookup _ _ _ a), (rd_lookup _ _ _ b) by (done || lia). cbn [obind].
  rewrite set_reg_insert by lia. cbn [obind].
  rewrite set_reg_insert by (cbn; rewrite length_insert; lia).
  eexists. split; [reflexivity|]. cbn.
  assert (Hs : u16 (a + b) = a + b) by (unfold u16; apply Z.mod_small; lia).
  rewrite Hs, land_ff.
  rewrite u8_small by (apply Z.mod_pos_bound; lia).
  split.
  - intros Hx. split.
    + lookup_simpl. rewrite u8_small; [done|]. destruct (255 <? a + b); lia.
    + lookup_simpl. done.
  - intros Hx. replace (Z.to_nat x) with 15%nat by lia. lookup_simpl. done.
Qed.

Ltac wf_concrete := apply (bool_decide_unpack _); vm_compute; reflexivity.

Lemma OP_8xy4_carry_witness :
  exists s', OP_8xy4 s_8014 = Ok s' /\ registers s' !! 15%nat = Some 1 /\
             registers s' !! 0%nat = Some 44.
Proof.
  destruct (OP_8xy4_carry s_8014 200 100) as (s' & Hs & Hne & _);
    [wf_concrete | reflexivity | reflexivity |].
  exists s'. split; [exact Hs|]. apply Hne. vm_compute. discriminate.
Defined.

(** C2 (counterexample): with [x = 15] ([0x8F04], [VF = 200], [V0 = 100]) the
    sum exceeds 255 but [VF] ends as 44, not 1. *)
Lemma OP_8xy4_flag_clobbered :
  exists s', OP_8xy4 s_8F04 = Ok s' /\
    registers s_8F04 !! 15%nat = Some 200 /\ registers s_8F04 !! 0%nat = Some 100 /\
    200 + 100 > 255 /\ registers s' !! 15%nat = Some 44.
Proof. eexists. split; [vm_compute; reflexivity|]. vm_compute. repeat split; discriminate. Qed.

(** ** C8: subtract *)

(** [OP_8xy5] as one update of the register file: the flag [f] goes to
    [VF] first, then [Vx] and [Vy] are read again, so each of them reads [f]
    when it is [VF]. *)
Lemma OP_8xy5_eq (s : chip8) (a b : Z) :
  wf s ->
  registers s !! Z.to_nat (op_x (opcode s)) = Some a ->
  registers s !! Z.to_nat (op_y (opcode s)) = Some b ->
  let f := if b <? a then 1 else 0 in
  OP_8xy5 s = Ok (set_registers s
    (<[Z.to_nat (op_x (opcode s)) :=
        ((if decide (op_x (opcode s) = 15) then f else a) -
         (if decide (op_y (opcode s) = 15) then f else b)) mod 256]>
       (<[15%nat := f]> (registers s)))).
Proof.
  intros Hwf Ha Hb f.
  destruct Hwf as (Hr & _).
  pose proof (op_x_range (opcode s)). pose proof (op_y_range (opcode s)).
  unfold OP_8xy5. fold (op_x (opcode s)). fold (op_y (opcode s)).
  set (x := op_x (opcode s)) in *. set (y := op_y (opcode s)) in *.
  rewrite (rd_lookup _ _ _ a), (rd_lookup _ _ _ b) by (done || lia). cbn [obind].
  fold f. assert (Hf : 0 <= f < 256) by (unfold f; destruct (b <? a); lia).
  rewrite set_reg_insert by lia. cbn [obind registers set_registers].
  rewrite (u8_small f) by lia.
  rewrite (rd_lookup _ _ _ (if decide (x = 15) then f else a)).
  2: lia.
  2: { case_decide as Hx.
       - replace (Z.to_nat x) with 15%nat by lia. lookup_simpl. reflexivity.
       - rewrite list_lookup_insert_ne by lia. exact Ha. }
  cbn [obind].
  rewrite (rd_lookup _ _ _ (if decide (y = 15) then f else b)).
  2: lia.
  2: { case_decide as Hy.
       - replace (Z.to_nat y) with 15%nat by lia. lookup_simpl. reflexivity.
       - rewrite list_lookup_insert_ne by lia. exact Hb. }
  cbn [obind].
  rewrite set_reg_insert by (cbn; rewrite length_insert; lia). reflexivity.
Qed.

(** C8 (amended): for 8-bit values [a] in [Vx] and [b] in [Vy], [OP_8xy5]
    first writes [f] to [VF], with [f = 1] iff [a > b] and 0 otherwise, and
    then stores [(Vx - Vy) mod 256] in [Vx], reading both registers again.
    With [x <> 15] and [y <> 15], [VF = f] and [Vx = (a - b) mod 256].  With
    [x <> 15] and [y = 15], [VF = f] and [Vx = (a - f) mod 256].  With
    [x = 15] the flag is overwritten by the difference: [VF] ends as
    [(f - b) mod 256] for [y <> 15], and as 0 for [y = 15].  No other
    register changes. *)
Theorem OP_8xy5_borrow (s : chip8) (a b : Z) :
  wf s ->
  registers s !! Z.to_nat (op_x (opcode s)) = Some a ->
  registers s !! Z.to_nat (op_y (opcode s)) = Some b ->
  let f := if b <? a then 1 else 0 in
  exists s', OP_8xy5 s = Ok s' /\
    (op_x (opcode s) <> 15 -> op_y (opcode s) <> 15 ->
       registers s' !! 15%nat = Some f /\
       registers s' !! Z.to_nat (op_x (opcode s)) = Some ((a - b) mod 256)) /\
    (op_x (opcode s) <> 15 -> op_y (opcode s) = 15 ->
       registers s' !! 15%nat = Some f /\
       registers s' !! Z.to_nat (op_x (opcode s)) = Some ((a - f) mod 256)) /\
    (op_x (opcode s) = 15 -> op_y (opcode s) <> 15 ->
       registers s' !! 15%nat = Some ((f - b) mod 256)) /\
    (op_x (opcode s) = 15 -> op_y (opcode s) = 15 ->
       registers s' !! 15%nat = Some 0) /\
    (forall i : nat, i <> 15%nat -> i <> Z.to_nat (op_x (opcode s)) ->
       registers s' !! i = registers s !! i).
Proof.
  intros Hwf Ha Hb f.
  pose proof (OP_8xy5_eq s a b Hwf Ha Hb) as Heq. cbv zeta in Heq. fold f in Heq.
  destruct Hwf as (Hr & _).
  pose proof (op_x_range (opcode s)). pose proof (op_y_range (opcode s)).
  set (x := op_x (opcode s)) in *. set (y := op_y (opcode s)) in *.
  eexists. split; [exact Heq|]. cbn [registers set_registers].
  split; [|split; [|split; [|split]]].
  - intros Hx Hy. rewrite !decide_False by done.
    split; lookup_simpl; reflexivity.
  - intros Hx Hy. rewrite decide_False, decide_True by done.
    split; lookup_simpl; reflexivity.
  - intros Hx Hy. rewrite decide_True, decide_False by done.
    replace (Z.to_nat x) with 15%nat by lia. lookup_simpl. reflexivity.
  - intros Hx Hy. rewrite !decide_True by done.
    replace (Z.to_nat x) with 15%nat by lia. lookup_simpl. by rewrite Z.sub_diag.
  - intros i Hi Hix. lookup_simpl. reflexivity.
Qed.

Lemma OP_8xy5_borrow_witness :
  (exists s', OP_8xy5 s_8015 = Ok s' /\ registers s' !! 15%nat = Some 0 /\
              registers s' !! 0%nat = Some 254) /\
  (exists s', OP_8xy5 s_8F05 = Ok s' /\ registers s' !! 15%nat = Some 254).
Proof.
  split.
  - destruct (OP_8xy5_borrow s_8015 3 5) as (s' & Hs & Hne & _);
      [wf_concrete | reflexivity | reflexivity |].
    exists s'. split; [exact Hs|].
    apply Hne; vm_compute; discriminate.
  - destruct (OP_8xy5_borrow s_8F05 5 3) as (s' & Hs & _ & _ & H15 & _);
      [wf_concrete | reflexivity | reflexivity |].
    exists s'. split; [exact Hs|].
    apply H15; [reflexivity | vm_compute; discriminate].
Defined.

(** C8 (counterexample): with [x = 15] ([0x8F05], [VF = 5], [V0 = 3]),
    [5 > 3] but [VF] ends as [(1 - 3) mod 256 = 254], not 1, and not
    [(5 - 3) mod 256]. *)
Lemma OP_8xy5_flag_clobbered :
  exists s', OP_8xy5 s_8F05 = Ok s' /\
    registers s_8F05 !! 15%nat = Some 5 /\ registers s_8F05 !! 0%nat = Some 3 /\
    registers s' !! 15%nat = Some 254.
Proof. eexists. split; [vm_compute; reflexivity|]. vm_compute. repeat split. Qed.

(** ** C4: skip if not equal to the immediate *)

(** C4 (code bug): [OP_4xkk] masks the instruction word with [0x00F], so for
    [0x4012] and [V0 = 0x12 = kk] it compares [V0] with [0x2], finds them
    different and skips, while [OP_3xkk] (mask [0x00FF]) sees them equal. *)
Theorem OP_4xkk_low_nibble :
  registers s_4012 !! 0%nat = Some (Z.land 0x4012 0xFF) /\
  OP_4xkk s_4012 = Ok (set_pc s_4012 (pc s_4012 + 2)) /\
  OP_3xkk s_4012 = Ok (set_pc s_4012 (pc s_4012 + 2)).
Proof. vm_compute. repeat split. Qed.

(** ** C1: program load *)

(** C1 (counterexample): an image one byte longer than [4096 - 0x200] is not
    rejected: the copy loop writes [memory[4096]], past the end of memory. *)
Lemma LoadROM_overflow :
  LoadROM (Some (repeat 1 (4096 - 0x200 + 1))) (boot 0) = OutOfBounds MemoryA 4096.
Proof. vm_compute. reflexivity. Qed.

Lemma forM_app {A} (l1 l2 : list A) (f : A -> chip8 -> outcome chip8) (s : chip8) :
  forM (l1 ++ l2) f s = obind (forM l1 f s) (forM l2 f).
Proof.
  revert s. induction l1 as [|a l1 IH]; intros s; cbn; [done|].
  destruct (f a s); cbn; [apply IH | done].
Qed.

Lemma set_memory_memory (s : chip8) : set_memory s (memory s) = s.
Proof. by destruct s. Qed.

Lemma load_loop (buffer : list Z) (j n : nat) (s : chip8) :
  length (memory s) = 4096%nat -> (j + n <= length buffer)%nat ->
  (512 + j + n <= 4096)%nat ->
  exists m,
    forM (map Z.of_nat (seq j n)) (fun i s =>
        let* b := rd BufferA buffer i in
        let* m := wr MemoryA (memory s) (START_ADDRESS + i) (u8 b) in
        Ok (set_memory s m)) s = Ok (set_memory s m) /\
    length m = 4096%nat /\
    forall a : nat, m !! a =
      if decide (512 + j <= a < 512 + j + n)%nat then u8 <$> buffer !! (a - 512)%nat
      else memory s !! a.
Proof.
  revert j s. induction n as [|n IH]; intros j s Hm Hj Ha.
  - exists (memory s). cbn. rewrite set_memory_memory. split; [done|]. split; [done|].
    intros a. case_decide; [lia | done].
  - cbn [seq map forM].
    destruct (lookup_lt_is_Some_2 buffer j) as [b Hb]; [lia|].
    rewrite (rd_lookup _ _ _ b) by (rewrite ?Nat2Z.id; done || lia). cbn [obind].
    rewrite wr_insert by (unfold START_ADDRESS; lia). cbn [obind].
    replace (Z.to_nat (START_ADDRESS + Z.of_nat j)) with (512 + j)%nat
      by (unfold START_ADDRESS; lia).
    set (s1 := set_memory s (<[(512 + j)%nat := u8 b]> (memory s))).
    destruct (IH (S j) s1) as (m & Hrun & Hlen & Hpt);
      [cbn; rewrite length_insert; done | lia | lia |].
    exists m. split; [exact Hrun|]. split; [done|].
    intros a. rewrite Hpt. cbn [s1 set_memory memory].
    destruct (decide (a = 512 + j)%nat) as [->|Hne].
    + rewrite decide_False by lia. rewrite decide_True by lia.
      rewrite list_lookup_insert_eq by lia.
      replace (512 + j - 512)%nat with j by lia. by rewrite Hb.
    + rewrite list_lookup_insert_ne by lia.
      repeat case_decide; done || lia.
Qed.

(** C1 (amended): [LoadROM] has no length check and no error result.  An
    image of at most [4096 - 0x200] bytes is copied so that byte [i] (as
    [uint8_t]) is at address [0x200 + i] and the rest of the state is
    unchanged; for a longer image the copy loop goes on to write
    [memory[4096]], past the end of memory. *)
Theorem LoadROM_spec (s : chip8) (buffer : list Z) :
  wf s ->
  ((length buffer <= 4096 - 512)%nat ->
   exists m, LoadROM (Some buffer) s = Ok (set_memory s m) /\
     (forall i : nat, (i < length buffer)%nat -> m !! (512 + i)%nat = u8 <$> buffer !! i) /\
     (forall a : nat, (a < 512 \/ 512 + length buffer <= a)%nat -> m !! a = memory s !! a)) /\
  ((4096 - 512 < length buffer)%nat ->
   LoadROM (Some buffer) s = OutOfBounds MemoryA 4096).
Proof.
  intros (_ & Hm & _). unfold LoadROM, range. rewrite Nat2Z.id. split.
  - intros Hlen.
    destruct (load_loop buffer 0 (length buffer) s) as (m & Hrun & _ & Hpt); [done|lia|lia|].
    exists m. split; [exact Hrun|]. split.
    + intros i Hi. rewrite Hpt. rewrite decide_True by lia. do 2 f_equal. lia.
    + intros a Ha. rewrite Hpt. rewrite decide_False by lia. done.
  - intros Hlen.
    replace (length buffer) with (3584 + (length buffer - 3584))%nat by lia.
    rewrite seq_app, map_app, forM_app.
    destruct (load_loop buffer 0 3584 s) as (m & Hrun & Hlen' & _); [done|lia|lia|].
    rewrite Hrun. cbn [obind].
    destruct (length buffer - 3584)%nat as [|k] eqn:Hk; [lia|].
    cbn [seq map forM].
    destruct (lookup_lt_is_Some_2 buffer 3584) as [b Hb]; [lia|].
    rewrite (rd_lookup _ _ _ b) by (done || lia). cbn [obind].
    rewrite wr_out by (cbn; rewrite Hlen'; unfold START_ADDRESS; lia). done.
Qed.

Lemma LoadROM_spec_witness :
  exists m, LoadROM (Some (repeat 7 3584)) (boot 0) = Ok (set_memory (boot 0) m).
Proof.
  destruct (LoadROM_spec (boot 0) (repeat 7 3584)) as [H _]; [wf_concrete|].
  destruct H as (m & Hm & _); [apply Nat.leb_le; vm_compute; reflexivity|].
  exists m. exact Hm.
Defined.

(** ** C3: call and return *)

(** C3 (counterexample): [OP_2nnn] does not increment first and store at the
    new top: from [sp = 0] it stores the return address [0x200] in [stack[0]]
    and leaves [stack[1]], the slot at the new [sp = 1], untouched. *)
Lemma OP_2nnn_store_then_increment :
  exists s', OP_2nnn s_2300 = Ok s' /\ sp s_2300 = 0 /\ sp s' = 1 /\
    stack s' !! Z.to_nat (sp s') = Some 0 /\ pc s_2300 = 0x200 /\
    stack s' !! 0%nat = Some 0x200.
Proof. eexists. split; [vm_compute; reflexivity|]. vm_compute. repeat split. Qed.

(** C3 (amended): with [sp < 16], [OP_2nnn] first stores the current [pc] at
    [stack[sp]] and then increments [sp] (so [sp] counts the stored entries)
    before jumping to [nnn]; with [1 <= sp <= 16], [OP_00EE] first decrements
    [sp] and then loads [stack[sp]] into [pc]. *)
Theorem call_return (s : chip8) :
  wf s ->
  (0 <= sp s < 16 ->
   OP_2nnn s = Ok (set_pc (set_sp (set_stack s (<[Z.to_nat (sp s) := pc s]> (stack s)))
                                   (sp s + 1))
                          (Z.land (opcode s) 0x0FFF))) /\
  (1 <= sp s <= 16 -> forall r : Z, stack s !! Z.to_nat (sp s - 1) = Some r ->
   OP_00EE s = Ok (set_pc (set_sp s (sp s - 1)) r)).
Proof.
  intros (_ & _ & Hst & _). split.
  - intros Hsp. unfold OP_2nnn. rewrite wr_insert by lia. cbn.
    unfold u8. rewrite Z.mod_small by lia. done.
  - intros Hsp r Hr. unfold OP_00EE.
    assert (Hu : u8 (sp s - 1) = sp s - 1) by (unfold u8; apply Z.mod_small; lia).
    cbn. rewrite Hu. rewrite (rd_lookup _ _ _ r) by (done || lia). done.
Qed.

Lemma call_return_witness :
  OP_00EE s_00EE = Ok (set_pc (set_sp s_00EE 0) 0x234).
Proof.
  destruct (call_return s_00EE) as [_ Hret]; [wf_concrete|].
  apply (Hret ltac:(vm_compute; split; discriminate) 0x234). vm_compute. reflexivity.
Defined.

(** ** C9: BCD store *)

(** C9: for the value [v] of [Vx] and [index + 2 < 4096], [OP_Fx33] writes the
    hundreds digit of [v] at [memory[index]], the tens digit at
    [memory[index+1]] and the ones digit at [memory[index+2]]. *)
Theorem OP_Fx33_bcd (s : chip8) (v : Z) :
  wf s -> index s + 2 < 4096 ->
  registers s !! Z.to_nat (op_x (opcode s)) = Some v ->
  exists m, OP_Fx33 s = Ok (set_memory s m) /\
    m !! Z.to_nat (index s) = Some (v / 100) /\
    m !! Z.to_nat (index s + 1) = Some (v / 10 mod 10) /\
    m !! Z.to_nat (index s + 2) = Some (v mod 10).
Proof.
  intros Hwf Hi Hv. pose proof (wf_reg_u8 _ _ _ Hwf Hv).
  destruct Hwf as (_ & Hm & _ & _ & _ & _ & _ & _ & Hix & _).
  pose proof (op_x_range (opcode s)).
  unfold OP_Fx33. fold (op_x (opcode s)).
  rewrite (rd_lookup _ _ _ v) by (done || lia). cbn [obind].
  rewrite wr_insert by lia. cbn [obind].
  rewrite wr_insert by (rewrite length_insert; lia). cbn [obind].
  rewrite wr_insert by (rewrite !length_insert; lia). cbn [obind].
  eexists. split; [reflexivity|].
  rewrite Z.div_div by lia. change (10 * 10) with 100.
  rewrite (Z.mod_small (v / 100)) by (split; [apply Z.div_pos | apply Z.div_lt_upper_bound]; lia).
  split; [|split].
  - lookup_simpl. done.
  - rewrite list_lookup_insert_ne by lia. lookup_simpl. done.
  - rewrite !list_lookup_insert_ne by lia. lookup_simpl. done.
Qed.

Lemma OP_Fx33_bcd_witness :
  exists m, OP_Fx33 s_F033 = Ok (set_memory s_F033 m) /\
    m !! 0x300%nat = Some 2 /\ m !! 0x301%nat = Some 5 /\ m !! 0x302%nat = Some 5.
Proof.
  destruct (OP_Fx33_bcd s_F033 255) as (m & Hm & H0 & H1 & H2);
    [wf_concrete | vm_compute; reflexivity | reflexivity |].
  exists m. split; [exact Hm|]. split; [exact H0|]. split; [exact H1 | exact H2].
Defined.

(** ** C10: register dump and load keep the index register *)

Lemma forM_index {A} (l : list A) (f : A -> chip8 -> outcome chip8) (s s' : chip8) :
  (forall a t t', f a t = Ok t' -> index t' = index t) ->
  forM l f s = Ok s' -> index s' = index s.
Proof.
  intros Hf. revert s. induction l as [|a l IH]; intros s Hrun; cbn in Hrun.
  - by injection Hrun as <-.
  - destruct (f a s) as [t|] eqn:Ht; cbn in Hrun; [|discriminate].
    rewrite (IH t Hrun). exact (Hf a s t Ht).
Qed.

Lemma set_reg_index (t t' : chip8) (i v : Z) : set_reg t i v = Ok t' -> index t' = index t.
Proof.
  unfold set_reg. destruct (wr _ _ _ _); cbn; [|discriminate]. by intros [= <-].
Qed.

(** C10: neither [OP_Fx55] (store [V0..Vx] at [index]) nor [OP_Fx65] (load
    [V0..Vx] from [index]) changes the index register. *)
Theorem Fx55_Fx65_keep_index (s s' : chip8) :
  (OP_Fx55 s = Ok s' -> index s' = index s) /\
  (OP_Fx65 s = Ok s' -> index s' = index s).
Proof.
  split; apply forM_index; intros a t t'.
  - destruct (rd _ _ _); cbn; [|discriminate].
    destruct (wr _ _ _ _); cbn; [|discriminate]. by intros [= <-].
  - destruct (rd _ _ _); cbn; [|discriminate]. apply set_reg_index.
Qed.

Lemma Fx55_Fx65_keep_index_witness :
  exists s1 s2, OP_Fx55 s_F255 = Ok s1 /\ index s1 = 0x300 /\
                OP_Fx65 s_F265 = Ok s2 /\ index s2 = 0x50.
Proof.
  destruct (OP_Fx55 s_F255) as [s1|arr i] eqn:E1; [|vm_compute in E1; discriminate].
  destruct (OP_Fx65 s_F265) as [s2|arr i] eqn:E2; [|vm_compute in E2; discriminate].
  exists s1, s2. split; [reflexivity|]. split.
  - exact (proj1 (Fx55_Fx65_keep_index s_F255 s1) E1).
  - split; [reflexivity|]. exact (proj2 (Fx55_Fx65_keep_index s_F265 s2) E2).
Defined.

(** ** C7: wait for a key *)

Lemma wait_key_idle (Vx : Z) (j n : nat) (s : chip8) :
  (forall k : nat, (j <= k < j + n)%nat -> keypad s !! k = Some 0) ->
  wait_key Vx (map Z.of_nat (seq j n)) s = Ok (set_pc s (u16 (pc s - 2))).
Proof.
  revert j. induction n as [|n IH]; intros j Hk; cbn; [done|].
  rewrite (rd_lookup _ _ _ 0) by (rewrite ?Nat2Z.id; apply Hk || lia; lia). cbn.
  apply IH. intros k Hk'. apply Hk. lia.
Qed.

Lemma wait_key_first (Vx : Z) (j n k : nat) (v : Z) (s : chip8) :
  (j <= k < j + n)%nat -> keypad s !! k = Some v -> v <> 0 ->
  (forall i : nat, (j <= i < k)%nat -> keypad s !! i = Some 0) ->
  wait_key Vx (map Z.of_nat (seq j n)) s = set_reg s Vx (Z.of_nat k).
Proof.
  revert j. induction n as [|n IH]; intros j Hjk Hv Hnz Hlow; [lia|]. cbn.
  destruct (decide (j = k)) as [->|Hne].
  - rewrite (rd_lookup _ _ _ v) by (rewrite ?Nat2Z.id; done || lia). cbn.
    destruct (Z.eqb_spec v 0); [done|]. done.
  - rewrite (rd_lookup _ _ _ 0) by (rewrite ?Nat2Z.id; apply Hlow || lia; lia). cbn.
    apply IH; [lia | done | done |]. intros i Hi. apply Hlow. lia.
Qed.

(** C7: with no key pressed, [OP_Fx0A] only rewinds [pc] by 2 (so after the
    fetch advance [pc = p + 2] it is back at [p]) and leaves the registers
    unchanged; when [k] is the lowest-indexed pressed key, it stores [k] in
    [Vx] and leaves [pc] unchanged. *)
Theorem OP_Fx0A_wait (s : chip8) :
  wf s ->
  ((forall k : nat, (k < 16)%nat -> keypad s !! k = Some 0) ->
   OP_Fx0A s = Ok (set_pc s (u16 (pc s - 2))) /\
   forall p : Z, 0 <= p < 65536 -> pc s = u16 (p + 2) -> u16 (pc s - 2) = p) /\
  (forall k : nat, (k < 16)%nat -> keypad s !! k <> Some 0 ->
   (forall i : nat, (i < k)%nat -> keypad s !! i = Some 0) ->
   OP_Fx0A s =
     Ok (set_registers s (<[Z.to_nat (op_x (opcode s)) := Z.of_nat k]> (registers s)))).
Proof.
  intros (Hr & _ & _ & Hkp & _). pose proof (op_x_range (opcode s)). split.
  - intros Hidle. split.
    + unfold OP_Fx0A, range. apply wait_key_idle. intros k Hk. apply Hidle. lia.
    + intros p Hp ->. unfold u16. rewrite Zminus_mod_idemp_l.
      replace (p + 2 - 2) with p by lia. by apply Z.mod_small.
  - intros k Hk Hpress Hlow.
    destruct (lookup_lt_is_Some_2 (keypad s) k) as [v Hv]; [lia|].
    unfold OP_Fx0A, range. rewrite (wait_key_first _ 0 16 k v) by (done || lia || congruence
      || (intros i Hi; apply Hlow; lia)).
    fold (op_x (opcode s)). rewrite set_reg_insert by lia.
    rewrite u8_small by lia. done.
Qed.

Lemma OP_Fx0A_wait_witness :
  OP_Fx0A s_F30A_idle = Ok (set_pc s_F30A_idle 0x200) /\
  OP_Fx0A s_F30A_keys = Ok (set_registers s_F30A_keys
                              (<[3%nat := 5]> (registers s_F30A_keys))).
Proof.
  destruct (OP_Fx0A_wait s_F30A_idle) as [Hidle _]; [wf_concrete|].
  destruct (OP_Fx0A_wait s_F30A_keys) as [_ Hkey]; [wf_concrete|].
  split.
  - destruct Hidle as [H _];
      [intros k Hk; do 16 (destruct k as [|k]; [vm_compute; reflexivity|]); lia|].
    exact H.
  - apply (Hkey 5%nat); [lia | vm_compute; discriminate |].
    intros i Hi. do 5 (destruct i as [|i]; [vm_compute; reflexivity|]). lia.
Defined.

(** ** The draw as a list of toggles *)

Lemma rd_ok_bounds (arr : array) (l : list Z) (i v : Z) :
  rd arr l i = Ok v -> 0 <= i < Z.of_nat (length l).
Proof.
  unfold rd. destruct (Z.ltb_spec i 0); [discriminate|].
  destruct (l !! Z.to_nat i) eqn:E; [|discriminate]. intros _.
  apply lookup_lt_Some in E. lia.
Qed.

Lemma wr_ok_bounds (arr : array) (l l' : list Z) (i v : Z) :
  wr arr l i v = Ok l' -> 0 <= i < Z.of_nat (length l) /\ l' = <[Z.to_nat i := v]> l.
Proof.
  unfold wr. destruct (Z.leb_spec 0 i), (Z.ltb_spec i (Z.of_nat (length l)));
    cbn; try discriminate. intros [= <-]. split; [lia | done].
Qed.

(** A draw only changes registers and video, and keeps the array sizes. *)
Definition draw_frame (t t' : chip8) : Prop :=
  exists r v, t' = set_video (set_registers t r) v /\
    length r = length (registers t) /\ length v = length (video t).

Lemma draw_frame_refl (t : chip8) : draw_frame t t.
Proof. exists (registers t), (video t). split; [by destruct t | done]. Qed.

Lemma draw_frame_trans (t1 t2 t3 : chip8) :
  draw_frame t1 t2 -> draw_frame t2 t3 -> draw_frame t1 t3.
Proof.
  intros (r1 & v1 & -> & Hr1 & Hv1) (r2 & v2 & -> & Hr2 & Hv2).
  exists r2, v2. cbn in *. split; [done|]. split; lia.
Qed.

Lemma forM_frame {A} (l : list A) (f : A -> chip8 -> outcome chip8) (s s' : chip8) :
  (forall a t t', f a t = Ok t' -> draw_frame t t') ->
  forM l f s = Ok s' -> draw_frame s s'.
Proof.
  intros Hf. revert s. induction l as [|a l IH]; intros s Hrun; cbn in Hrun.
  - injection Hrun as <-. apply draw_frame_refl.
  - destruct (f a s) as [t|] eqn:Ht; cbn in Hrun; [|discriminate].
    exact (draw_frame_trans _ _ _ (Hf a s t Ht) (IH t Hrun)).
Qed.

Lemma set_reg_frame (t t' : chip8) (i v : Z) : set_reg t i v = Ok t' -> draw_frame t t'.
Proof.
  unfold set_reg. destruct (wr _ _ _ _) eqn:E; cbn; [|discriminate].
  intros [= <-]. apply wr_ok_bounds in E as [_ ->].
  exists (<[Z.to_nat i := u8 v]> (registers t)), (video t).
  split; [by destruct t|]. by rewrite length_insert.
Qed.

Lemma toggle_pixel_frame (k : Z) (t t' : chip8) : toggle_pixel k t = Ok t' -> draw_frame t t'.
Proof.
  unfold toggle_pixel. destruct (rd _ _ _) as [px|]; cbn; [|discriminate].
  destruct (if px =? 0xFFFFFFFF then set_reg t 15 1 else Ok t) as [t1|] eqn:E1;
    cbn; [|discriminate].
  assert (H1 : draw_frame t t1).
  { destruct (px =? 0xFFFFFFFF); [exact (set_reg_frame _ _ _ _ E1)|].
    injection E1 as <-. apply draw_frame_refl. }
  destruct (wr _ _ _ _) eqn:E2; cbn; [|discriminate]. intros [= <-].
  apply wr_ok_bounds in E2 as [_ ->].
  apply (draw_frame_trans _ t1); [done|].
  exists (registers t1), (<[Z.to_nat k := Z.lxor px 0xFFFFFFFF]> (video t1)).
  split; [by destruct t1|]. by rewrite length_insert.
Qed.

Lemma draw_pixel_frame (xPos yPos row sb col : Z) (t t' : chip8) :
  draw_pixel xPos yPos row sb col t = Ok t' -> draw_frame t t'.
Proof.
  unfold draw_pixel. destruct (_ =? 0).
  - intros [= <-]. apply draw_frame_refl.
  - apply toggle_pixel_frame.
Qed.

Lemma draw_row_frame (xPos yPos row : Z) (t t' : chip8) :
  draw_row xPos yPos row t = Ok t' -> draw_frame t t'.
Proof.
  unfold draw_row. destruct (rd _ _ _); cbn; [|discriminate].
  apply forM_frame. intros. by eapply draw_pixel_frame.
Qed.

Lemma draw_cols_eq (xPos yPos row sb : Z) (cols : list Z) (s : chip8) :
  forM cols (draw_pixel xPos yPos row sb) s =
  forM (map (cell xPos yPos row)
          (List.filter (fun col => negb (Z.land sb (Z.shiftr 0x80 col) =? 0)) cols))
       toggle_pixel s.
Proof.
  revert s. induction cols as [|col cols IH]; intros s; cbn; [done|].
  unfold draw_pixel. destruct (Z.land sb (Z.shiftr 0x80 col) =? 0); cbn; [apply IH|].
  destruct (toggle_pixel _ s); cbn; [apply IH | done].
Qed.

Lemma draw_rows_eq (xPos yPos : Z) (rows : list Z) (s : chip8) :
  Forall (fun row => 0 <= index s + row < Z.of_nat (length (memory s))) rows ->
  forM rows (draw_row xPos yPos) s =
  forM (draw_cells (memory s) (index s) xPos yPos rows) toggle_pixel s.
Proof.
  revert s. induction rows as [|row rows IH]; intros s Hb; cbn; [done|].
  inversion Hb as [|? ? Hrow Hb']; subst.
  unfold draw_row. destruct (rd_in MemoryA (memory s) (index s + row)) as (sb & Hsb & ->);
    [done|]. cbn [obind].
  rewrite (nth_lookup_Some _ _ _ _ Hsb), forM_app, draw_cols_eq.
  unfold sprite_cells, sprite_cols.
  destruct (forM _ toggle_pixel s) as [t|] eqn:Ht; cbn; [|done].
  destruct (forM_frame _ _ _ _ toggle_pixel_frame Ht) as (r & v & -> & _).
  apply (IH (set_video (set_registers s r) v)). exact Hb'.
Qed.

Lemma draw_rows_bounds (xPos yPos : Z) (rows : list Z) (s s' : chip8) :
  forM rows (draw_row xPos yPos) s = Ok s' ->
  Forall (fun row => 0 <= index s + row < Z.of_nat (length (memory s))) rows.
Proof.
  revert s. induction rows as [|row rows IH]; intros s Hrun; cbn in Hrun; [constructor|].
  destruct (draw_row xPos yPos row s) as [t|] eqn:Ht; cbn in Hrun; [|discriminate].
  constructor.
  - unfold draw_row in Ht. destruct (rd _ _ _) eqn:E; [|discriminate].
    exact (rd_ok_bounds _ _ _ _ E).
  - destruct (draw_row_frame _ _ _ _ _ Ht) as (r & v & -> & _). exact (IH _ Hrun).
Qed.

Lemma toggles_bounds (L : list Z) (s s' : chip8) :
  forM L toggle_pixel s = Ok s' ->
  Forall (fun k => 0 <= k < Z.of_nat (length (video s))) L.
Proof.
  revert s. induction L as [|k L IH]; intros s Hrun; cbn in Hrun; [constructor|].
  destruct (toggle_pixel k s) as [t|] eqn:Ht; cbn in Hrun; [|discriminate].
  constructor.
  - unfold toggle_pixel in Ht. destruct (rd _ _ _) eqn:E; [|discriminate].
    exact (rd_ok_bounds _ _ _ _ E).
  - destruct (toggle_pixel_frame _ _ _ Ht) as (r & v & -> & _ & Hv).
    specialize (IH _ Hrun). cbn in IH. rewrite Hv in IH. exact IH.
Qed.

Lemma set_video_registers_twice (s : chip8) (r1 r2 v1 v2 : list Z) :
  set_video (set_registers (set_video (set_registers s r1) v1) r2) v2 =
  set_video (set_registers s r2) v2.
Proof. by destruct s. Qed.

Lemma registers_set_frame (s : chip8) (r v : list Z) :
  registers (set_video (set_registers s r) v) = r.
Proof. done. Qed.

Lemma video_set_frame (s : chip8) (r v : list Z) :
  video (set_video (set_registers s r) v) = v.
Proof. done. Qed.

Lemma Exists_insert_other (L : list Z) (k x : Z) (V : list Z) (P : option Z -> Prop) :
  ~ In k L -> 0 <= k -> Forall (fun k' => 0 <= k') L ->
  Exists (fun k' => P (<[Z.to_nat k := x]> V !! Z.to_nat k')) L <->
  Exists (fun k' => P (V !! Z.to_nat k')) L.
Proof.
  intros Hk Hk0 Hpos. rewrite !List.Exists_exists.
  split; intros (k' & Hin & HP); exists k'; split; try done;
    pose proof (proj1 (List.Forall_forall _ _) Hpos k' Hin); cbn in *;
    assert (k' <> k) by (intros ->; contradiction).
  - by rewrite list_lookup_insert_ne in HP by lia.
  - by rewrite list_lookup_insert_ne by lia.
Qed.

(** Toggling a list of distinct in-bounds cells: each cell of the list is
    flipped once, and [VF] is set to 1 iff one of them was on beforehand. *)
Lemma toggles_spec (L : list Z) (s : chip8) :
  List.NoDup L ->
  Forall (fun k => 0 <= k < Z.of_nat (length (video s))) L ->
  length (registers s) = 16%nat ->
  exists v, forM L toggle_pixel s =
    Ok (set_video (set_registers s
          (if decide (Exists (fun k => video s !! Z.to_nat k = Some 0xFFFFFFFF) L)
           then <[15%nat := 1]> (registers s) else registers s)) v) /\
    length v = length (video s) /\
    forall n : nat, v !! n =
      if in_dec Z.eq_dec (Z.of_nat n) L
      then (fun p => Z.lxor p 0xFFFFFFFF) <$> video s !! n
      else video s !! n.
Proof.
  revert s. induction L as [|k L IH]; intros s Hnd Hb Hr.
  - exists (video s). cbn. rewrite decide_False by (intros HE; inversion HE).
    split; [by destruct s|]. split; done.
  - inversion Hnd as [|? ? Hk HndL]; subst. inversion Hb as [|? ? Hbk HbL]; subst.
    destruct (rd_in VideoA (video s) k Hbk) as (px & Hpx & Hrd).
    set (regs1 := if px =? 0xFFFFFFFF then <[15%nat := 1]> (registers s) else registers s).
    set (t2 := set_video (set_registers s regs1)
                 (<[Z.to_nat k := Z.lxor px 0xFFFFFFFF]> (video s))).
    assert (Hstep : toggle_pixel k s = Ok t2).
    { unfold toggle_pixel. rewrite Hrd. cbn [obind]. unfold t2, regs1.
      destruct (px =? 0xFFFFFFFF).
      - rewrite set_reg_insert by lia. cbn [obind]. rewrite wr_insert by (cbn; lia).
        reflexivity.
      - cbn [obind]. rewrite wr_insert by lia. reflexivity. }
    destruct (IH t2) as (v & Hrun & Hlen & Hpt).
    { done. }
    { cbn. rewrite length_insert. exact HbL. }
    { cbn. unfold regs1. destruct (_ =? _); rewrite ?length_insert; done. }
    exists v. cbn [forM]. rewrite Hstep. cbn [obind]. rewrite Hrun.
    assert (Hpos : Forall (fun k' => 0 <= k') L).
    { eapply Forall_impl; [|exact HbL]. intros ? ?; cbn in *; lia. }
    split; [| split].
    + unfold t2. rewrite set_video_registers_twice, registers_set_frame, video_set_frame.
      do 3 f_equal.
      pose proof (Exists_insert_other L k (Z.lxor px 0xFFFFFFFF) (video s)
                    (fun o => o = Some 0xFFFFFFFF) Hk ltac:(lia) Hpos) as Hiff2.
      cbv beta in Hiff2.
      assert (Hiff1 : Exists (fun k' => video s !! Z.to_nat k' = Some 0xFFFFFFFF) (k :: L)
                      <-> px = 0xFFFFFFFF \/
                          Exists (fun k' => video s !! Z.to_nat k' = Some 0xFFFFFFFF) L).
      { split; intros HE.
        - inversion HE; subst; [left; congruence | by right].
        - destruct HE as [Hf|HE]; [apply Exists_cons_hd; by rewrite Hpx, Hf | by apply Exists_cons_tl]. }
      unfold regs1. destruct (Z.eqb_spec px 0xFFFFFFFF) as [Hf|Hf].
        all: repeat case_decide; rewrite ?list_insert_insert_eq; first [done | tauto].
    + unfold t2 in Hlen. rewrite video_set_frame in Hlen. rewrite Hlen, length_insert. done.
    + intros n. rewrite Hpt. unfold t2. rewrite video_set_frame.
      destruct (decide (n = Z.to_nat k)) as [->|Hne].
      * rewrite list_lookup_insert_eq by lia. rewrite Hpx.
        rewrite Z2Nat.id by lia.
        destruct (in_dec Z.eq_dec k L); [contradiction|].
        destruct (in_dec Z.eq_dec k (k :: L)) as [|Hnin]; [done|].
        exfalso. apply Hnin. by left.
      * rewrite list_lookup_insert_ne by lia.
        destruct (in_dec Z.eq_dec (Z.of_nat n) L) as [Hin|Hnin],
                 (in_dec Z.eq_dec (Z.of_nat n) (k :: L)) as [Hin'|Hnin']; try done.
        -- exfalso. apply Hnin'. by right.
        -- destruct Hin' as [Heq|Hin']; [lia | contradiction].
Qed.

(** ** Cells of a draw: shape, distinctness, emptiness *)

Lemma In_range (n c : Z) : 0 <= n -> In c (range n) <-> 0 <= c < n.
Proof.
  intros Hn. unfold range. rewrite List.in_map_iff. split.
  - intros (m & <- & Hm). apply List.in_seq in Hm. lia.
  - intros Hc. exists (Z.to_nat c). split; [lia|]. apply List.in_seq. lia.
Qed.

Lemma In_sprite_cells (xPos yPos row sb k : Z) :
  In k (sprite_cells xPos yPos row sb) -> exists c, 0 <= c < 8 /\ k = cell xPos yPos row c.
Proof.
  unfold sprite_cells, sprite_cols. rewrite List.in_map_iff.
  intros (c & <- & Hc). apply List.filter_In in Hc as [Hc _].
  apply In_range in Hc; [|lia]. by exists c.
Qed.

Lemma NoDup_map_inj {A B} (f : A -> B) (l : list A) :
  (forall a b, f a = f b -> a = b) -> List.NoDup l -> List.NoDup (map f l).
Proof.
  intros Hf Hl. induction Hl as [|a l Ha Hl IH]; cbn; constructor; [|done].
  rewrite List.in_map_iff. intros (b & Hb & Hin). apply Hf in Hb. subst. contradiction.
Qed.

Lemma NoDup_range (n : Z) : List.NoDup (range n).
Proof. apply NoDup_map_inj; [lia | apply List.seq_NoDup]. Qed.

Lemma NoDup_draw_cells (mem : list Z) (idx xPos yPos : Z) (rows : list Z) :
  0 <= xPos < 64 -> List.NoDup rows ->
  List.NoDup (draw_cells mem idx xPos yPos rows).
Proof.
  intros Hx Hrows. unfold draw_cells.
  induction Hrows as [|row rows Hrow Hrows IH]; cbn; [constructor|].
  apply List.NoDup_app; [| exact IH |].
  - unfold sprite_cells. apply NoDup_map_inj.
    + intros a b. unfold cell, VIDEO_WIDTH. lia.
    + apply List.NoDup_filter, NoDup_range.
  - intros k Hk Hk'. apply In_sprite_cells in Hk as (c & Hc & ->).
    apply List.in_flat_map in Hk' as (row' & Hin' & Hk').
    apply In_sprite_cells in Hk' as (c' & Hc' & Heq).
    unfold cell, VIDEO_WIDTH in Heq. assert (row = row') as -> by lia. contradiction.
Qed.

Lemma sprite_cols_nil (sb : Z) : 0 <= sb < 256 -> sprite_cols sb = [] <-> sb = 0.
Proof.
  intros Hsb.
  assert (Hall : forallb (fun b => Bool.eqb (match sprite_cols b with [] => true | _ => false end)
                                            (b =? 0)) (range 256) = true)
    by (vm_compute; reflexivity).
  rewrite forallb_forall in Hall.
  specialize (Hall sb ltac:(apply In_range; lia)).
  destruct (sprite_cols sb), (Z.eqb_spec sb 0); cbn in Hall; try discriminate;
    split; intros; done || lia.
Qed.

Lemma app_nil_iff {A} (l1 l2 : list A) : l1 ++ l2 = [] <-> l1 = [] /\ l2 = [].
Proof. split; [apply List.app_eq_nil | by intros [-> ->]]. Qed.

Lemma map_nil_iff {A B} (f : A -> B) (l : list A) : map f l = [] <-> l = [].
Proof. split; [apply List.map_eq_nil | by intros ->]. Qed.

(** A draw toggles no cell exactly when every sprite byte it reads is 0. *)
Lemma draw_cells_nil (mem : list Z) (idx xPos yPos : Z) (rows : list Z) :
  Forall (fun row => 0 <= idx + row < Z.of_nat (length mem)) rows ->
  Forall (fun b => 0 <= b < 256) mem ->
  draw_cells mem idx xPos yPos rows = [] <->
  ~ Exists (fun row => mem !! Z.to_nat (idx + row) <> Some 0) rows.
Proof.
  intros Hb Hmem. unfold draw_cells.
  induction Hb as [|row rows Hrow Hb IH]; cbn.
  - split; [intros _ HE; inversion HE | done].
  - destruct (lookup_lt_is_Some_2 mem (Z.to_nat (idx + row))) as [sb Hsb]; [lia|].
    rewrite (nth_lookup_Some _ _ _ _ Hsb).
    pose proof (Forall_lookup_1 _ _ _ _ Hmem Hsb) as Hsb8. cbn in Hsb8.
    unfold sprite_cells. rewrite app_nil_iff, IH.
    rewrite map_nil_iff, (sprite_cols_nil sb Hsb8).
    split.
    + intros [-> Hno] HE. inversion HE; subst; [congruence | contradiction].
    + intros Hno. split.
      * destruct (Z.eq_dec sb 0) as [|Hne]; [done|]. exfalso. apply Hno.
        constructor. rewrite Hsb. congruence.
      * intros HE. apply Hno. by constructor 2.
Qed.

Lemma registers_set_registers (s : chip8) (r : list Z) : registers (set_registers s r) = r.
Proof. done. Qed.
Lemma memory_set_registers (s : chip8) (r : list Z) : memory (set_registers s r) = memory s.
Proof. done. Qed.
Lemma index_set_registers (s : chip8) (r : list Z) : index (set_registers s r) = index s.
Proof. done. Qed.
Lemma video_set_registers (s : chip8) (r : list Z) : video (set_registers s r) = video s.
Proof. done. Qed.
Lemma opcode_set_registers (s : chip8) (r : list Z) : opcode (set_registers s r) = opcode s.
Proof. done. Qed.
Lemma registers_set_video (s : chip8) (v : list Z) : registers (set_video s v) = registers s.
Proof. done. Qed.
Lemma memory_set_video (s : chip8) (v : list Z) : memory (set_video s v) = memory s.
Proof. done. Qed.
Lemma index_set_video (s : chip8) (v : list Z) : index (set_video s v) = index s.
Proof. done. Qed.
Lemma video_set_video (s : chip8) (v : list Z) : video (set_video s v) = v.
Proof. done. Qed.
Lemma opcode_set_video (s : chip8) (v : list Z) : opcode (set_video s v) = opcode s.
Proof. done. Qed.

Create Rewrite HintDb chip8_proj.
#[export] Hint Rewrite registers_set_registers memory_set_registers index_set_registers
  video_set_registers opcode_set_registers registers_set_video memory_set_video
  index_set_video video_set_video opcode_set_video : chip8_proj.

(** [OP_Dxyn] decodes its operands, clears [VF] and runs the row loop. *)
Lemma OP_Dxyn_unfold (t : chip8) (rx ry : Z) :
  length (registers t) = 16%nat ->
  registers t !! Z.to_nat (op_x (opcode t)) = Some rx ->
  registers t !! Z.to_nat (op_y (opcode t)) = Some ry ->
  OP_Dxyn t =
  forM (range (Z.land (opcode t) 0x000F))
       (draw_row (rx mod VIDEO_WIDTH) (ry mod VIDEO_HEIGHT))
       (set_registers t (<[15%nat := 0]> (registers t))).
Proof.
  intros Hr Hx Hy. pose proof (op_x_range (opcode t)). pose proof (op_y_range (opcode t)).
  unfold OP_Dxyn. fold (op_x (opcode t)). fold (op_y (opcode t)).
  rewrite (rd_lookup _ _ _ rx), (rd_lookup _ _ _ ry) by (done || lia). cbn [obind].
  rewrite set_reg_insert by lia. reflexivity.
Qed.

Lemma lxor_ff_twice (p : Z) : Z.lxor (Z.lxor p 0xFFFFFFFF) 0xFFFFFFFF = p.
Proof. by rewrite Z.lxor_assoc, Z.lxor_nilpotent, Z.lxor_0_r. Qed.

(** C5: two draws of the same sprite at the same place on a clear screen.
    Each draw first clears VF. If the position registers Vx and Vy still
    hold their values after the first draw, the second draw toggles the
    same cells back, so the video buffer is all off again. VF is 0 after
    the first draw and, after the second, 1 exactly when some sprite byte
    read from memory is nonzero (with no lit pixel, nothing is erased). *)
Theorem OP_Dxyn_twice (s s1 : chip8) :
  wf s -> Forall (fun p => p = 0) (video s) ->
  OP_Dxyn s = Ok s1 ->
  registers s1 !! Z.to_nat (op_x (opcode s)) = registers s !! Z.to_nat (op_x (opcode s)) ->
  registers s1 !! Z.to_nat (op_y (opcode s)) = registers s !! Z.to_nat (op_y (opcode s)) ->
  registers s1 !! 15%nat = Some 0 /\
  exists s2, OP_Dxyn s1 = Ok s2 /\ video s2 = video s /\
    registers s2 !! 15%nat =
      Some (if decide (Exists (fun row => memory s !! Z.to_nat (index s + row) <> Some 0)
                              (range (Z.land (opcode s) 0x000F))) then 1 else 0).
Proof.
  intros Hwf Hzero Hrun1 Hsx Hsy.
  destruct Hwf as (Hr & Hm & _ & _ & Hv & _ & Hmu & _).
  pose proof (op_x_range (opcode s)) as Hx. pose proof (op_y_range (opcode s)) as Hy.
  destruct (rd_in RegistersA (registers s) (op_x (opcode s))) as (rx & Hrx & _); [lia|].
  destruct (rd_in RegistersA (registers s) (op_y (opcode s))) as (ry & Hry & _); [lia|].
  rewrite (OP_Dxyn_unfold s rx ry Hr Hrx Hry) in Hrun1.
  assert (Hb : Forall (fun row => 0 <= index s + row < Z.of_nat (length (memory s)))
                      (range (Z.land (opcode s) 0x000F)))
    by exact (draw_rows_bounds _ _ _ _ _ Hrun1).
  rewrite draw_rows_eq in Hrun1 by exact Hb.
  change (forM (draw_cells (memory s) (index s) (rx mod VIDEO_WIDTH) (ry mod VIDEO_HEIGHT)
                           (range (Z.land (opcode s) 0x000F))) toggle_pixel
               (set_registers s (<[15%nat:=0]> (registers s))) = Ok s1) in Hrun1.
  remember (draw_cells (memory s) (index s) (rx mod VIDEO_WIDTH) (ry mod VIDEO_HEIGHT)
                       (range (Z.land (opcode s) 0x000F))) as L eqn:HL.
  assert (HbL : Forall (fun k => 0 <= k < Z.of_nat (length (video s))) L)
    by exact (toggles_bounds _ _ _ Hrun1).
  assert (Hnd : List.NoDup L).
  { subst L. apply NoDup_draw_cells; [unfold VIDEO_WIDTH; apply Z.mod_pos_bound; lia|].
    apply NoDup_range. }
  destruct (toggles_spec L (set_registers s (<[15%nat:=0]> (registers s))) Hnd HbL)
    as (v1 & Hrun1' & Hlen1 & Hpt1);
    [by rewrite registers_set_registers, length_insert|].
  autorewrite with chip8_proj in Hrun1', Hlen1, Hpt1.
  rewrite decide_False in Hrun1'.
  2:{ intros HE. apply List.Exists_exists in HE as (k & _ & Hk).
      pose proof (Forall_lookup_1 _ _ _ _ Hzero Hk). discriminate. }
  rewrite Hrun1 in Hrun1'. injection Hrun1' as Hs1.
  assert (Hreg1 : registers s1 = <[15%nat:=0]> (registers s)) by (subst s1; done).
  assert (Hvid1 : video s1 = v1) by (subst s1; done).
  assert (Hmem1 : memory s1 = memory s) by (subst s1; done).
  assert (Hidx1 : index s1 = index s) by (subst s1; done).
  assert (Hop1 : opcode s1 = opcode s) by (subst s1; done).
  clear Hs1 Hrun1.
  split; [rewrite Hreg1; lookup_simpl; done|].
  assert (Hr1 : length (registers s1) = 16%nat) by (by rewrite Hreg1, length_insert).
  rewrite (OP_Dxyn_unfold s1 rx ry Hr1) by (rewrite Hop1; congruence).
  rewrite Hop1, draw_rows_eq by (autorewrite with chip8_proj; rewrite Hmem1, Hidx1; exact Hb).
  autorewrite with chip8_proj. rewrite Hmem1, Hidx1, <- HL.
  destruct (toggles_spec L (set_registers s1 (<[15%nat:=0]> (registers s1))) Hnd)
    as (v2 & Hrun2 & _ & Hpt2);
    [by autorewrite with chip8_proj; rewrite Hvid1, Hlen1
    |by rewrite registers_set_registers, length_insert|].
  autorewrite with chip8_proj in Hrun2, Hpt2. rewrite Hvid1 in Hrun2, Hpt2.
  rewrite Hrun2. eexists. split; [reflexivity|].
  autorewrite with chip8_proj. split.
  - apply list_eq. intros n. rewrite Hpt2, Hpt1.
    destruct (in_dec Z.eq_dec (Z.of_nat n) L); [|done].
    destruct (video s !! n); cbn; [by rewrite lxor_ff_twice | done].
  - assert (Hlit : Exists (fun k => v1 !! Z.to_nat k = Some 0xFFFFFFFF) L <-> L <> []).
    { split; [by intros HE ->; inversion HE|].
      destruct L as [|k L']; [done|]. intros _. apply Exists_cons_hd.
      inversion HbL as [|? ? Hk _]; subst.
      rewrite Hpt1. destruct (in_dec Z.eq_dec (Z.of_nat (Z.to_nat k)) (k :: L')) as [_|Hn];
        [|exfalso; apply Hn; left; lia].
      destruct (lookup_lt_is_Some_2 (video s) (Z.to_nat k)) as [p Hp]; [lia|].
      rewrite Hp. pose proof (Forall_lookup_1 _ _ _ _ Hzero Hp) as Hp0. cbn in Hp0.
      by subst p. }
    assert (Hnil : L = [] <-> ~ Exists (fun row => memory s !! Z.to_nat (index s + row) <> Some 0)
                                     (range (Z.land (opcode s) 0x000F))).
    { subst L. apply draw_cells_nil; [exact Hb | exact Hmu]. }
    rewrite Hreg1. repeat case_decide; lookup_simpl; first [done | tauto].
Qed.

(** C5: with a blank sprite (five zero bytes read from address 0), two
    draws at the same place leave VF = 0, not 1. *)
Lemma OP_Dxyn_blank_sprite :
  match OP_Dxyn s_D015 with
  | Ok s1 => match OP_Dxyn s1 with
             | Ok s2 => registers s2 !! 15%nat = Some 0 /\ video s2 = video s_D015
             | OutOfBounds _ _ => False
             end
  | OutOfBounds _ _ => False
  end.
Proof. vm_compute. split; reflexivity. Qed.

Lemma OP_Dxyn_twice_witness :
  exists s1, OP_Dxyn s_D015_font = Ok s1 /\
  registers s1 !! 15%nat = Some 0 /\
  exists s2, OP_Dxyn s1 = Ok s2 /\ video s2 = video s_D015_font /\
    registers s2 !! 15%nat =
      Some (if decide (Exists (fun row => memory s_D015_font !! Z.to_nat (index s_D015_font + row) <> Some 0)
                              (range (Z.land (opcode s_D015_font) 0x000F))) then 1 else 0).
Proof.
  destruct (OP_Dxyn s_D015_font) as [s1|] eqn:E; [|vm_compute in E; discriminate].
  exists s1. split; [reflexivity|].
  apply (OP_Dxyn_twice s_D015_font s1).
  - wf_concrete.
  - apply (bool_decide_unpack _). vm_compute. reflexivity.
  - exact E.
  - vm_compute in E. injection E as <-. vm_compute. reflexivity.
  - vm_compute in E. injection E as <-. vm_compute. reflexivity.
Defined.

(** C6: there is no wrap or clip during the traversal. At (63, 31) the
    second lit column of the byte 0xF0 addresses cell 2048, past the end of
    [video]; at (63, 0) it lands on cell 64, the first cell of the next row,
    and cell 0 of the same row is left off. *)
Lemma OP_Dxyn_no_wrap :
  OP_Dxyn s_D011_corner = OutOfBounds VideoA 2048 /\
  match OP_Dxyn s_D011_edge with
  | Ok t => video t !! 63%nat = Some 0xFFFFFFFF /\ video t !! 64%nat = Some 0xFFFFFFFF /\
            video t !! 0%nat = Some 0
  | OutOfBounds _ _ => False
  end.
Proof. vm_compute. repeat split; reflexivity. Qed.

Lemma draw_cells_bound (mem : list Z) (idx xPos yPos n k : Z) :
  0 <= n -> In k (draw_cells mem idx xPos yPos (range n)) ->
  exists row col, 0 <= row < n /\ 0 <= col < 8 /\ k = (yPos + row) * VIDEO_WIDTH + (xPos + col).
Proof.
  intros Hn Hk. unfold draw_cells in Hk. apply List.in_flat_map in Hk as (row & Hrow & Hk).
  apply In_range in Hrow; [|done]. apply In_sprite_cells in Hk as (c & Hc & ->).
  exists row, c. unfold cell. lia.
Qed.

(** C6 (amended): the origin is [xPos = Vx mod 64], [yPos = Vy mod 32];
    sprite row [r], column [c] then addresses cell
    [(yPos + r) * 64 + (xPos + c)], with no wrap or clip. When the sprite
    rows lie in memory and every such cell is below 2048, the draw succeeds
    and toggles exactly the cells of the lit sprite bits. *)
Theorem OP_Dxyn_in_bounds (s : chip8) (rx ry : Z) :
  wf s ->
  registers s !! Z.to_nat (op_x (opcode s)) = Some rx ->
  registers s !! Z.to_nat (op_y (opcode s)) = Some ry ->
  index s + Z.land (opcode s) 0x000F <= 4096 ->
  (ry mod VIDEO_HEIGHT + Z.land (opcode s) 0x000F - 1) * VIDEO_WIDTH
    + rx mod VIDEO_WIDTH + 7 < 2048 ->
  exists s', OP_Dxyn s = Ok s' /\
    forall k : nat, video s' !! k =
      if in_dec Z.eq_dec (Z.of_nat k)
           (draw_cells (memory s) (index s) (rx mod VIDEO_WIDTH) (ry mod VIDEO_HEIGHT)
                       (range (Z.land (opcode s) 0x000F)))
      then (fun p => Z.lxor p 0xFFFFFFFF) <$> video s !! k
      else video s !! k.
Proof.
  intros Hwf Hrx Hry Hmem Hcells.
  destruct Hwf as (Hr & Hm & _ & _ & Hv & _ & _ & _ & Hidx & _).
  pose proof (Z.land_nonneg (opcode s) 0x000F) as Hn0.
  assert (Hn : 0 <= Z.land (opcode s) 0x000F) by (apply Hn0; lia). clear Hn0.
  assert (HxPos : 0 <= rx mod VIDEO_WIDTH < 64)
    by (unfold VIDEO_WIDTH; apply Z.mod_pos_bound; lia).
  assert (HyPos : 0 <= ry mod VIDEO_HEIGHT < 32)
    by (unfold VIDEO_HEIGHT; apply Z.mod_pos_bound; lia).
  rewrite (OP_Dxyn_unfold s rx ry Hr Hrx Hry).
  rewrite draw_rows_eq.
  2:{ apply List.Forall_forall. intros row Hrow. apply In_range in Hrow; [|done].
      cbn. rewrite Hm. lia. }
  cbn [memory index set_registers].
  destruct (toggles_spec (draw_cells (memory s) (index s) (rx mod VIDEO_WIDTH)
                            (ry mod VIDEO_HEIGHT) (range (Z.land (opcode s) 0x000F)))
              (set_registers s (<[15%nat:=0]> (registers s))))
    as (v & Hrun & _ & Hpt).
  - apply NoDup_draw_cells; [exact HxPos | apply NoDup_range].
  - apply List.Forall_forall. intros k Hk.
    apply draw_cells_bound in Hk as (row & col & Hrow & Hcol & ->); [|done].
    cbn. rewrite Hv. unfold VIDEO_WIDTH, VIDEO_HEIGHT in *. nia.
  - by rewrite registers_set_registers, length_insert.
  - rewrite Hrun. eexists. split; [reflexivity|].
    autorewrite with chip8_proj in Hpt |- *. exact Hpt.
Qed.

Lemma OP_Dxyn_in_bounds_witness :
  exists s', OP_Dxyn s_D015_font = Ok s' /\
    forall k : nat, video s' !! k =
      if in_dec Z.eq_dec (Z.of_nat k)
           (draw_cells (memory s_D015_font) (index s_D015_font) (0 mod VIDEO_WIDTH)
              (0 mod VIDEO_HEIGHT) (range (Z.land (opcode s_D015_font) 0x000F)))
      then (fun p => Z.lxor p 0xFFFFFFFF) <$> video s_D015_font !! k
      else video s_D015_font !! k.
Proof.
  apply (OP_Dxyn_in_bounds s_D015_font 0 0).
  - wf_concrete.
  - vm_compute. reflexivity.
  - vm_compute. reflexivity.
  - vm_compute. discriminate.
  - vm_compute. reflexivity.
Defined.

(** ** Further properties of the handlers *)

Lemma bitop_mod (f : Z -> Z -> Z) (g : bool -> bool -> bool) (a b : Z) :
  (forall a b n, Z.testbit (f a b) n = g (Z.testbit a n) (Z.testbit b n)) ->
  g false false = false ->
  0 <= a < 256 -> 0 <= b < 256 -> 0 <= f a b < 256.
Proof.
  intros Hf Hg Ha Hb.
  assert (Hm : f a b mod 2 ^ 8 = f a b).
  { apply Z.bits_inj'. intros n Hn. destruct (Z.lt_ge_cases n 8).
    - by rewrite Z.mod_pow2_bits_low by lia.
    - rewrite Z.mod_pow2_bits_high by lia. rewrite Hf.
      rewrite <- (Z.mod_small a (2 ^ 8)), <- (Z.mod_small b (2 ^ 8)) by (cbn; lia).
      rewrite !Z.mod_pow2_bits_high by lia. by rewrite Hg. }
  rewrite <- Hm. apply Z.mod_pos_bound. lia.
Qed.

Lemma lor_byte (a b : Z) : 0 <= a < 256 -> 0 <= b < 256 -> 0 <= Z.lor a b < 256.
Proof. apply bitop_mod with (g := orb); [apply Z.lor_spec | done]. Qed.
Lemma land_byte (a b : Z) : 0 <= a < 256 -> 0 <= b < 256 -> 0 <= Z.land a b < 256.
Proof. apply bitop_mod with (g := andb); [apply Z.land_spec | done]. Qed.
Lemma lxor_byte (a b : Z) : 0 <= a < 256 -> 0 <= b < 256 -> 0 <= Z.lxor a b < 256.
Proof. apply bitop_mod with (g := xorb); [apply Z.lxor_spec | done]. Qed.

Lemma kk_byte (op : Z) : 0 <= Z.land op 0x00FF < 256.
Proof. rewrite land_ff. apply Z.mod_pos_bound. lia. Qed.

(** X1: the register handlers 6xkk, 7xkk, 8xy0, 8xy1, 8xy2 and 8xy3 never
    fail on a well-formed state and write only [Vx]: [kk], [(Vx + kk) mod 256],
    [Vy], [Vx | Vy], [Vx & Vy] and [Vx ^ Vy]. No flag is set ([VF] changes
    only as [Vx] when [x = 15]). *)
Theorem register_ops (s : chip8) (a b : Z) :
  wf s ->
  registers s !! Z.to_nat (op_x (opcode s)) = Some a ->
  registers s !! Z.to_nat (op_y (opcode s)) = Some b ->
  let x := Z.to_nat (op_x (opcode s)) in
  let kk := Z.land (opcode s) 0x00FF in
  OP_6xkk s = Ok (set_registers s (<[x := kk]> (registers s))) /\
  OP_7xkk s = Ok (set_registers s (<[x := (a + kk) mod 256]> (registers s))) /\
  OP_8xy0 s = Ok (set_registers s (<[x := b]> (registers s))) /\
  OP_8xy1 s = Ok (set_registers s (<[x := Z.lor a b]> (registers s))) /\
  OP_8xy2 s = Ok (set_registers s (<[x := Z.land a b]> (registers s))) /\
  OP_8xy3 s = Ok (set_registers s (<[x := Z.lxor a b]> (registers s))).
Proof.
  intros Hwf Ha Hb x kk.
  pose proof (wf_reg_u8 _ _ _ Hwf Ha). pose proof (wf_reg_u8 _ _ _ Hwf Hb).
  destruct Hwf as (Hr & _).
  pose proof (op_x_range (opcode s)). pose proof (op_y_range (opcode s)).
  pose proof (kk_byte (opcode s)).
  unfold OP_6xkk, OP_7xkk, OP_8xy0, OP_8xy1, OP_8xy2, OP_8xy3.
  fold (op_x (opcode s)). fold (op_y (opcode s)).
  rewrite (rd_lookup _ _ _ a), (rd_lookup _ _ _ b) by (done || lia). cbn [obind].
  rewrite !set_reg_insert by lia.
  rewrite (u8_small (Z.land (opcode s) 0x00FF)), (u8_small b),
    (u8_small (Z.lor a b)), (u8_small (Z.land a b)), (u8_small (Z.lxor a b))
    by first [lia | apply lor_byte; lia | apply land_byte; lia | apply lxor_byte; lia].
  repeat split.
Qed.

Lemma register_ops_witness :
  let x := Z.to_nat (op_x (opcode s_8123)) in
  let kk := Z.land (opcode s_8123) 0x00FF in
  OP_6xkk s_8123 = Ok (set_registers s_8123 (<[x := kk]> (registers s_8123))) /\
  OP_7xkk s_8123 = Ok (set_registers s_8123 (<[x := (0x0C + kk) mod 256]> (registers s_8123))) /\
  OP_8xy0 s_8123 = Ok (set_registers s_8123 (<[x := 0x0A]> (registers s_8123))) /\
  OP_8xy1 s_8123 = Ok (set_registers s_8123 (<[x := Z.lor 0x0C 0x0A]> (registers s_8123))) /\
  OP_8xy2 s_8123 = Ok (set_registers s_8123 (<[x := Z.land 0x0C 0x0A]> (registers s_8123))) /\
  OP_8xy3 s_8123 = Ok (set_registers s_8123 (<[x := Z.lxor 0x0C 0x0A]> (registers s_8123))).
Proof.
  apply (register_ops s_8123 0x0C 0x0A);
    [wf_concrete | vm_compute; reflexivity | vm_compute; reflexivity].
Defined.

Lemma land_1 (a : Z) : Z.land a 0x1 = a mod 2.
Proof. change 0x1 with (Z.ones 1). rewrite Z.land_ones by lia. done. Qed.

Lemma msb_byte (a : Z) : 0 <= a < 256 -> Z.shiftr (Z.land a 0x80) 7 = a / 128.
Proof.
  intros Ha.
  assert (Hall : forallb (fun v => Z.shiftr (Z.land v 0x80) 7 =? v / 128) (range 256) = true)
    by (vm_compute; reflexivity).
  rewrite forallb_forall in Hall. apply Z.eqb_eq, Hall. apply In_range; lia.
Qed.

(** X2: [8xy6] shifts [Vx] right by one and ignores [Vy]. For [x <> 15], [VF]
    receives the bit shifted out ([Vx mod 2]) and [Vx] becomes [Vx / 2]; for
    [x = 15] the shift applies to the flag just written, so [VF] ends 0. *)
Theorem OP_8xy6_shift (s : chip8) (a : Z) :
  wf s ->
  registers s !! Z.to_nat (op_x (opcode s)) = Some a ->
  (op_x (opcode s) <> 15 ->
     OP_8xy6 s = Ok (set_registers s
       (<[Z.to_nat (op_x (opcode s)) := a / 2]> (<[15%nat := a mod 2]> (registers s))))) /\
  (op_x (opcode s) = 15 -> OP_8xy6 s = Ok (set_registers s (<[15%nat := 0]> (registers s)))).
Proof.
  intros Hwf Ha. pose proof (wf_reg_u8 _ _ _ Hwf Ha) as Hab.
  destruct Hwf as (Hr & _). pose proof (op_x_range (opcode s)).
  unfold OP_8xy6. fold (op_x (opcode s)). set (x := op_x (opcode s)) in *.
  rewrite (rd_lookup _ _ _ a) by (done || lia). cbn [obind].
  rewrite set_reg_insert by lia. cbn [obind]. rewrite land_1.
  assert (Hb : 0 <= a mod 2 < 2) by (apply Z.mod_pos_bound; lia).
  rewrite u8_small by lia.
  split; intros Hx.
  - rewrite (rd_lookup _ _ _ a) by (cbn; lookup_simpl; done || lia). cbn [obind].
    rewrite set_reg_insert by (cbn; rewrite length_insert; lia). cbn.
    rewrite Z.shiftr_div_pow2, u8_small by (lia || (split; [apply Z.div_pos | apply Z.div_lt_upper_bound]; lia)).
    done.
  - rewrite (rd_lookup _ _ _ (a mod 2)) by (cbn; replace (Z.to_nat x) with 15%nat by lia;
                                              lookup_simpl; done || lia). cbn [obind].
    rewrite set_reg_insert by (cbn; rewrite length_insert; lia). cbn.
    replace (Z.to_nat x) with 15%nat by lia. rewrite list_insert_insert_eq.
    rewrite Z.shiftr_div_pow2 by lia.
    replace (a mod 2 / 2 ^ 1) with 0 by (symmetry; apply Z.div_small; cbn; lia). done.
Qed.

Lemma OP_8xy6_shift_witness :
  OP_8xy6 s_8106 = Ok (set_registers s_8106
    (<[Z.to_nat (op_x (opcode s_8106)) := 5 / 2]> (<[15%nat := 5 mod 2]> (registers s_8106)))).
Proof.
  apply (proj1 (OP_8xy6_shift s_8106 5 ltac:(wf_concrete) ltac:(vm_compute; reflexivity))).
  vm_compute. discriminate.
Defined.

(** X3: [8xyE] shifts [Vx] left by one and ignores [Vy]. For [x <> 15], [VF]
    receives the bit shifted out ([Vx / 128]) and [Vx] becomes
    [(2 * Vx) mod 256]; for [x = 15] the shift applies to the flag just
    written, so [VF] ends [2 * (Vx / 128)], that is 0 or 2. *)
Theorem OP_8xyE_shift (s : chip8) (a : Z) :
  wf s ->
  registers s !! Z.to_nat (op_x (opcode s)) = Some a ->
  (op_x (opcode s) <> 15 ->
     OP_8xyE s = Ok (set_registers s
       (<[Z.to_nat (op_x (opcode s)) := (2 * a) mod 256]> (<[15%nat := a / 128]> (registers s))))) /\
  (op_x (opcode s) = 15 ->
     OP_8xyE s = Ok (set_registers s (<[15%nat := 2 * (a / 128)]> (registers s)))).
Proof.
  intros Hwf Ha. pose proof (wf_reg_u8 _ _ _ Hwf Ha) as Hab.
  destruct Hwf as (Hr & _). pose proof (op_x_range (opcode s)).
  unfold OP_8xyE. fold (op_x (opcode s)). set (x := op_x (opcode s)) in *.
  rewrite (rd_lookup _ _ _ a) by (done || lia). cbn [obind].
  rewrite set_reg_insert by lia. cbn [obind]. rewrite msb_byte by lia.
  assert (Hq : 0 <= a / 128 < 2) by (split; [apply Z.div_pos | apply Z.div_lt_upper_bound]; lia).
  rewrite u8_small by lia.
  split; intros Hx.
  - rewrite (rd_lookup _ _ _ a) by (cbn; lookup_simpl; done || lia). cbn [obind].
    rewrite set_reg_insert by (cbn; rewrite length_insert; lia). cbn.
    rewrite Z.shiftl_mul_pow2 by lia. unfold u8. by rewrite (Z.mul_comm a).
  - rewrite (rd_lookup _ _ _ (a / 128)) by (cbn; replace (Z.to_nat x) with 15%nat by lia;
                                              lookup_simpl; done || lia). cbn [obind].
    rewrite set_reg_insert by (cbn; rewrite length_insert; lia). cbn.
    replace (Z.to_nat x) with 15%nat by lia. rewrite list_insert_insert_eq.
    rewrite Z.shiftl_mul_pow2, u8_small by lia. by rewrite Z.mul_comm.
Qed.

Lemma OP_8xyE_shift_witness :
  OP_8xyE s_810E = Ok (set_registers s_810E
    (<[Z.to_nat (op_x (opcode s_810E)) := (2 * 0x81) mod 256]>
       (<[15%nat := 0x81 / 128]> (registers s_810E)))).
Proof.
  apply (proj1 (OP_8xyE_shift s_810E 0x81 ltac:(wf_concrete) ltac:(vm_compute; reflexivity))).
  vm_compute. discriminate.
Defined.

(** X4: [8xy7] sets [Vx = (Vy - Vx) mod 256] and [VF = 1] iff [Vy > Vx] when
    neither operand is [VF]; with [x = 15] the difference overwrites the
    flag, which is subtracted in place of the old [VF]. *)
Theorem OP_8xy7_subn (s : chip8) (a b : Z) :
  wf s ->
  registers s !! Z.to_nat (op_x (opcode s)) = Some a ->
  registers s !! Z.to_nat (op_y (opcode s)) = Some b ->
  op_y (opcode s) <> 15 ->
  (op_x (opcode s) <> 15 ->
     OP_8xy7 s = Ok (set_registers s
       (<[Z.to_nat (op_x (opcode s)) := (b - a) mod 256]>
          (<[15%nat := if a <? b then 1 else 0]> (registers s))))) /\
  (op_x (opcode s) = 15 ->
     OP_8xy7 s = Ok (set_registers s
       (<[15%nat := (b - if a <? b then 1 else 0) mod 256]> (registers s)))).
Proof.
  intros Hwf Ha Hb Hy.
  pose proof (wf_reg_u8 _ _ _ Hwf Ha). pose proof (wf_reg_u8 _ _ _ Hwf Hb).
  destruct Hwf as (Hr & _).
  pose proof (op_x_range (opcode s)). pose proof (op_y_range (opcode s)).
  unfold OP_8xy7. fold (op_x (opcode s)). fold (op_y (opcode s)).
  set (x := op_x (opcode s)) in *. set (y := op_y (opcode s)) in *.
  rewrite (rd_lookup _ _ _ a), (rd_lookup _ _ _ b) by (done || lia). cbn [obind].
  rewrite set_reg_insert by lia. cbn [obind].
  set (f := if a <? b then 1 else 0).
  assert (Hf : 0 <= f < 256) by (unfold f; destruct (a <? b); lia).
  rewrite (u8_small f) by lia.
  rewrite (rd_lookup _ _ _ b) by (cbn; lookup_simpl; done || lia). cbn [obind].
  split; intros Hx.
  - rewrite (rd_lookup _ _ _ a) by (cbn; lookup_simpl; done || lia). cbn [obind].
    rewrite set_reg_insert by (cbn; rewrite length_insert; lia). done.
  - rewrite (rd_lookup _ _ _ f) by (cbn; replace (Z.to_nat x) with 15%nat by lia;
                                      lookup_simpl; done || lia). cbn [obind].
    rewrite set_reg_insert by (cbn; rewrite length_insert; lia). cbn.
    replace (Z.to_nat x) with 15%nat by lia. by rewrite list_insert_insert_eq.
Qed.

Lemma OP_8xy7_subn_witness :
  OP_8xy7 s_8127 = Ok (set_registers s_8127
    (<[Z.to_nat (op_x (opcode s_8127)) := (5 - 3) mod 256]>
       (<[15%nat := if 3 <? 5 then 1 else 0]> (registers s_8127)))).
Proof.
  apply (proj1 (OP_8xy7_subn s_8127 3 5 ltac:(wf_concrete) ltac:(vm_compute; reflexivity)
                  ltac:(vm_compute; reflexivity) ltac:(vm_compute; discriminate))).
  vm_compute. discriminate.
Defined.

(** X5: [Cxkk] stores [rnd & kk] for the random byte [rnd]: the result is a
    submask of [kk] (no bit outside [kk], at most [kk]), and every submask of
    [kk] is the result for some random byte, itself. *)
Theorem OP_Cxkk_mask (s : chip8) :
  wf s ->
  (forall rnd, exists v,
     OP_Cxkk rnd s = Ok (set_registers s (<[Z.to_nat (op_x (opcode s)) := v]> (registers s))) /\
     (0 <= rnd < 256 -> Z.land v (Z.lnot (Z.land (opcode s) 0x00FF)) = 0 /\
                        0 <= v <= Z.land (opcode s) 0x00FF)) /\
  (forall m, 0 <= m -> Z.land m (Z.lnot (Z.land (opcode s) 0x00FF)) = 0 ->
     OP_Cxkk m s = Ok (set_registers s (<[Z.to_nat (op_x (opcode s)) := m]> (registers s)))).
Proof.
  intros Hwf. destruct Hwf as (Hr & _ & _ & _ & _ & _ & _ & _ & _ & _ & _ & Hop).
  pose proof (op_x_range (opcode s)). pose proof (kk_byte (opcode s)).
  set (kk := Z.land (opcode s) 0x00FF) in *.
  unfold OP_Cxkk. fold (op_x (opcode s)). fold kk.
  split.
  - intros rnd. exists (u8 (Z.land rnd kk)). rewrite set_reg_insert by lia.
    split; [done|]. intros Hrnd.
    rewrite u8_small by (apply land_byte; lia).
    split.
    + by rewrite <- Z.land_assoc, Z.land_lnot_diag, Z.land_0_r.
    + split; [apply Z.land_nonneg; lia|].
      pose proof (Z.sub_land_same_l kk rnd) as Hd. rewrite Z.land_comm in Hd.
      assert (0 <= Z.land kk (Z.lnot rnd)) by (apply Z.land_nonneg; lia). lia.
  - intros m Hm Hsub. rewrite set_reg_insert by lia.
    assert (Hmk : Z.land m kk = m).
    { pose proof (Z.sub_land_same_l m kk). lia. }
    rewrite Hmk. assert (Hm8 : m < 256).
    { assert (m <= kk) by (rewrite <- Hmk; pose proof (Z.sub_land_same_l kk m) as Hd;
        rewrite Z.land_comm in Hd; assert (0 <= Z.land kk (Z.lnot m)) by (apply Z.land_nonneg; lia); lia).
      lia. }
    by rewrite u8_small by lia.
Qed.

Lemma OP_Cxkk_mask_witness :
  OP_Cxkk 0x05 s_C10F =
    Ok (set_registers s_C10F (<[Z.to_nat (op_x (opcode s_C10F)) := 0x05]> (registers s_C10F))).
Proof.
  apply (proj2 (OP_Cxkk_mask s_C10F ltac:(wf_concrete)) 0x05);
    [lia | vm_compute; reflexivity].
Defined.

Lemma rd_out (arr : array) (l : list Z) (i : Z) :
  Z.of_nat (length l) <= i -> rd arr l i = OutOfBounds arr i.
Proof.
  intros Hi. unfold rd. destruct (Z.ltb_spec i 0); [done|].
  rewrite lookup_ge_None_2 by lia. done.
Qed.

(** X6: a call followed by a return: with [sp < 16], [2nnn] jumps to [nnn]
    and pushes, and the following [00EE] gives back the state before the
    call, except that the stack slot [sp] keeps the return address. *)
Theorem call_then_return (s : chip8) :
  wf s -> sp s < 16 ->
  exists s1, OP_2nnn s = Ok s1 /\ pc s1 = Z.land (opcode s) 0x0FFF /\ sp s1 = sp s + 1 /\
    OP_00EE s1 = Ok (set_stack s (<[Z.to_nat (sp s) := pc s]> (stack s))).
Proof.
  intros Hwf Hsp. destruct Hwf as (_ & _ & Hst & _ & _ & _ & _ & _ & _ & _ & Hsp0 & _).
  unfold OP_2nnn. rewrite wr_insert by lia. cbn [obind].
  eexists. split; [reflexivity|]. cbn.
  rewrite u8_small by lia. split; [done|]. split; [done|].
  unfold OP_00EE. cbn. replace (sp s + 1 - 1) with (sp s) by lia.
  rewrite u8_small by lia.
  rewrite (rd_lookup _ _ _ (pc s)) by (lia || (rewrite list_lookup_insert_eq by lia; done)).
  done.
Qed.

Lemma call_then_return_witness :
  exists s1, OP_2nnn s_2300 = Ok s1 /\ pc s1 = Z.land (opcode s_2300) 0x0FFF /\
    sp s1 = sp s_2300 + 1 /\
    OP_00EE s1 = Ok (set_stack s_2300 (<[Z.to_nat (sp s_2300) := pc s_2300]> (stack s_2300))).
Proof. apply call_then_return; [wf_concrete | vm_compute; reflexivity]. Defined.

(** X7: the stack is not guarded. [2nnn] with [sp >= 16] stores at
    [stack[sp]], past the 16 entries; [00EE] with [sp = 0] wraps [sp] to 255
    and reads [stack[255]], and with [sp >= 17] reads [stack[sp - 1]]. *)
Theorem stack_unguarded (s : chip8) :
  wf s ->
  (16 <= sp s -> OP_2nnn s = OutOfBounds StackA (sp s)) /\
  (sp s = 0 -> OP_00EE s = OutOfBounds StackA 255) /\
  (17 <= sp s -> OP_00EE s = OutOfBounds StackA (sp s - 1)).
Proof.
  intros Hwf. destruct Hwf as (_ & _ & Hst & _ & _ & _ & _ & _ & _ & _ & Hsp0 & _).
  split; [|split].
  - intros Hsp. unfold OP_2nnn. rewrite wr_out by lia. done.
  - intros Hsp. unfold OP_00EE. cbn [set_sp sp stack]. rewrite Hsp.
    change (u8 (0 - 1)) with 255. rewrite rd_out by lia. done.
  - intros Hsp. unfold OP_00EE. cbn [set_sp sp stack]. rewrite u8_small by lia.
    rewrite rd_out by lia. done.
Qed.

Lemma stack_unguarded_witness :
  OP_2nnn s_2300_full = OutOfBounds StackA (sp s_2300_full) /\
  OP_00EE s_00EE_empty = OutOfBounds StackA 255.
Proof.
  split.
  - apply (proj1 (stack_unguarded s_2300_full ltac:(wf_concrete))).
    apply Z.leb_le. vm_compute. reflexivity.
  - apply (proj1 (proj2 (stack_unguarded s_00EE_empty ltac:(wf_concrete)))).
    vm_compute. reflexivity.
Defined.

(** X8: [5xy0] and [9xy0] are complementary: on the same state exactly one of
    them skips the next instruction ([pc += 2]); [5xy0] when [Vx = Vy],
    [9xy0] when [Vx <> Vy]. Neither changes anything else. *)
Theorem skip_eq_ne (s : chip8) (a b : Z) :
  wf s ->
  registers s !! Z.to_nat (op_x (opcode s)) = Some a ->
  registers s !! Z.to_nat (op_y (opcode s)) = Some b ->
  (a = b /\ OP_5xy0 s = Ok (set_pc s (u16 (pc s + 2))) /\ OP_9xy0 s = Ok s) \/
  (a <> b /\ OP_5xy0 s = Ok s /\ OP_9xy0 s = Ok (set_pc s (u16 (pc s + 2)))).
Proof.
  intros Hwf Ha Hb. pose proof (op_x_range (opcode s)). pose proof (op_y_range (opcode s)).
  unfold OP_5xy0, OP_9xy0. fold (op_x (opcode s)). fold (op_y (opcode s)).
  rewrite (rd_lookup _ _ _ a), (rd_lookup _ _ _ b) by (done || lia). cbn [obind].
  destruct (Z.eqb_spec a b); [left | right]; done.
Qed.

Lemma skip_eq_ne_witness :
  (7 = 7 /\ OP_5xy0 s_5120 = Ok (set_pc s_5120 (u16 (pc s_5120 + 2))) /\ OP_9xy0 s_5120 = Ok s_5120) \/
  (7 <> 7 /\ OP_5xy0 s_5120 = Ok s_5120 /\ OP_9xy0 s_5120 = Ok (set_pc s_5120 (u16 (pc s_5120 + 2)))).
Proof.
  apply (skip_eq_ne s_5120 7 7);
    [wf_concrete | vm_compute; reflexivity | vm_compute; reflexivity].
Defined.

(** X9: [Ex9E] and [Exa1] are complementary on the key [k = Vx]: for [k < 16]
    exactly one of them skips, [Ex9E] when [keypad[k]] is nonzero, [Exa1]
    when it is 0. For [k >= 16] both read [keypad[k]] past its 16 entries. *)
Theorem skip_key (s : chip8) (k : Z) :
  wf s ->
  registers s !! Z.to_nat (op_x (opcode s)) = Some k ->
  (forall p, k < 16 -> keypad s !! Z.to_nat k = Some p ->
     (p <> 0 /\ OP_Ex9E s = Ok (set_pc s (u16 (pc s + 2))) /\ OP_Exa1 s = Ok s) \/
     (p = 0 /\ OP_Ex9E s = Ok s /\ OP_Exa1 s = Ok (set_pc s (u16 (pc s + 2))))) /\
  (16 <= k -> OP_Ex9E s = OutOfBounds KeypadA k /\ OP_Exa1 s = OutOfBounds KeypadA k).
Proof.
  intros Hwf Hk. pose proof (wf_reg_u8 _ _ _ Hwf Hk).
  destruct Hwf as (_ & _ & _ & Hkp & _). pose proof (op_x_range (opcode s)).
  unfold OP_Ex9E, OP_Exa1. fold (op_x (opcode s)).
  rewrite (rd_lookup _ _ _ k) by (done || lia). cbn [obind]. split.
  - intros p Hk16 Hp. rewrite (rd_lookup _ _ _ p) by (done || lia). cbn [obind].
    destruct (Z.eqb_spec p 0); [right | left]; done.
  - intros Hk16. rewrite rd_out by lia. done.
Qed.

Lemma skip_key_witness :
  (1 <> 0 /\ OP_Ex9E s_E19E = Ok (set_pc s_E19E (u16 (pc s_E19E + 2))) /\ OP_Exa1 s_E19E = Ok s_E19E) \/
  (1 = 0 /\ OP_Ex9E s_E19E = Ok s_E19E /\ OP_Exa1 s_E19E = Ok (set_pc s_E19E (u16 (pc s_E19E + 2)))).
Proof.
  apply (proj1 (skip_key s_E19E 4 ltac:(wf_concrete) ltac:(vm_compute; reflexivity)) 1);
    [lia | vm_compute; reflexivity].
Defined.

(** X10: [Fx15] and [Fx18] copy [Vx] into the delay and the sound timer and
    change nothing else; [Fx07] for any register [Vz] then reads the delay
    timer back, so [Vz] gets the value of [Vx]. *)
Theorem timers_roundtrip (s : chip8) (v : Z) :
  wf s ->
  registers s !! Z.to_nat (op_x (opcode s)) = Some v ->
  OP_Fx15 s = Ok (set_delayTimer s v) /\ OP_Fx18 s = Ok (set_soundTimer s v) /\
  forall op', OP_Fx07 (set_opcode (set_delayTimer s v) op') =
    Ok (set_registers (set_opcode (set_delayTimer s v) op')
          (<[Z.to_nat (op_x op') := v]> (registers s))).
Proof.
  intros Hwf Hv. pose proof (wf_reg_u8 _ _ _ Hwf Hv).
  destruct Hwf as (Hr & _). pose proof (op_x_range (opcode s)).
  unfold OP_Fx15, OP_Fx18. fold (op_x (opcode s)).
  rewrite (rd_lookup _ _ _ v) by (done || lia). cbn [obind].
  split; [done|]. split; [done|]. intros op'. pose proof (op_x_range op').
  unfold OP_Fx07. cbn [opcode delayTimer set_opcode set_delayTimer]. fold (op_x op').
  rewrite set_reg_insert by (cbn [registers set_opcode set_delayTimer]; lia).
  rewrite u8_small by lia. done.
Qed.

Lemma timers_roundtrip_witness :
  OP_Fx15 s_F115 = Ok (set_delayTimer s_F115 42) /\ OP_Fx18 s_F115 = Ok (set_soundTimer s_F115 42) /\
  forall op', OP_Fx07 (set_opcode (set_delayTimer s_F115 42) op') =
    Ok (set_registers (set_opcode (set_delayTimer s_F115 42) op')
          (<[Z.to_nat (op_x op') := 42]> (registers s_F115))).
Proof. apply timers_roundtrip; [wf_concrete | vm_compute; reflexivity]. Defined.

(** X11: [Fx33] with [index + 2] outside memory fails at its first write,
    [memory[index + 2]] (the ones digit); no digit is stored. *)
Theorem OP_Fx33_out (s : chip8) :
  wf s -> 4096 <= index s + 2 -> OP_Fx33 s = OutOfBounds MemoryA (index s + 2).
Proof.
  intros Hwf Hi. destruct Hwf as (Hr & Hm & _). pose proof (op_x_range (opcode s)).
  destruct (rd_in RegistersA (registers s) (op_x (opcode s))) as (v & _ & Hrd); [lia|].
  unfold OP_Fx33. fold (op_x (opcode s)). rewrite Hrd. cbn [obind].
  rewrite wr_out by lia. done.
Qed.

Lemma OP_Fx33_out_witness :
  OP_Fx33 s_F033_top = OutOfBounds MemoryA (index s_F033_top + 2).
Proof. apply OP_Fx33_out; [wf_concrete | apply Z.leb_le; vm_compute; reflexivity]. Defined.

Lemma set_registers_twice (s : chip8) (r1 r2 : list Z) :
  set_registers (set_registers s r1) r2 = set_registers s r2.
Proof. by destruct s. Qed.

Lemma set_registers_registers (s : chip8) : set_registers s (registers s) = s.
Proof. by destruct s. Qed.

Lemma store_loop (j n : nat) (s : chip8) :
  length (registers s) = 16%nat -> length (memory s) = 4096%nat -> 0 <= index s ->
  (j + n <= 16)%nat -> (n = 0 \/ Z.to_nat (index s) + j + n <= 4096)%nat ->
  exists m,
    forM (map Z.of_nat (seq j n)) (fun i s =>
      let* r := rd RegistersA (registers s) i in
      let* m := wr MemoryA (memory s) (index s + i) r in
      Ok (set_memory s m)) s = Ok (set_memory s m) /\
    length m = 4096%nat /\
    forall a : nat, m !! a =
      if decide (Z.to_nat (index s) + j <= a < Z.to_nat (index s) + j + n)%nat
      then registers s !! (a - Z.to_nat (index s))%nat else memory s !! a.
Proof.
  revert j s. induction n as [|n IH]; intros j s Hr Hm Hi Hj Ha.
  - exists (memory s). cbn. rewrite set_memory_memory. split; [done|]. split; [done|].
    intros a. case_decide; [lia | done].
  - cbn [seq map forM].
    destruct (lookup_lt_is_Some_2 (registers s) j) as [v Hv]; [lia|].
    rewrite (rd_lookup _ _ _ v) by (rewrite ?Nat2Z.id; done || lia). cbn [obind].
    rewrite wr_insert by lia. cbn [obind].
    replace (Z.to_nat (index s + Z.of_nat j)) with (Z.to_nat (index s) + j)%nat by lia.
    destruct (IH (S j) (set_memory s (<[(Z.to_nat (index s) + j)%nat := v]> (memory s))))
      as (m & Hrun & Hlen & Hpt);
      cbn [set_memory registers memory index] in *; rewrite ?length_insert; try lia.
    exists m. split; [exact Hrun|]. split; [done|].
    intros a. rewrite Hpt.
    destruct (decide (a = Z.to_nat (index s) + j)%nat) as [->|Hne].
    + rewrite decide_False by lia. rewrite decide_True by lia.
      rewrite list_lookup_insert_eq by lia.
      replace (Z.to_nat (index s) + j - Z.to_nat (index s))%nat with j by lia. by rewrite Hv.
    + rewrite list_lookup_insert_ne by lia.
      repeat case_decide; done || lia.
Qed.

Lemma fetch_loop (j n : nat) (s : chip8) :
  length (registers s) = 16%nat -> length (memory s) = 4096%nat -> 0 <= index s ->
  (j + n <= 16)%nat -> (n = 0 \/ Z.to_nat (index s) + j + n <= 4096)%nat ->
  exists r,
    forM (map Z.of_nat (seq j n)) (fun i s =>
      let* b := rd MemoryA (memory s) (index s + i) in
      set_reg s i b) s = Ok (set_registers s r) /\
    length r = 16%nat /\
    forall a : nat, r !! a =
      if decide (j <= a < j + n)%nat
      then u8 <$> memory s !! (Z.to_nat (index s) + a)%nat else registers s !! a.
Proof.
  revert j s. induction n as [|n IH]; intros j s Hr Hm Hi Hj Ha.
  - exists (registers s). cbn. rewrite set_registers_registers. split; [done|].
    split; [done|]. intros a. case_decide; [lia | done].
  - cbn [seq map forM].
    destruct (lookup_lt_is_Some_2 (memory s) (Z.to_nat (index s) + j)) as [v Hv]; [lia|].
    rewrite (rd_lookup _ _ _ v)
      by (lia || (replace (Z.to_nat (index s + Z.of_nat j)) with (Z.to_nat (index s) + j)%nat
                    by lia; done)).
    cbn [obind]. rewrite set_reg_insert by lia. cbn [obind].
    rewrite Nat2Z.id.
    destruct (IH (S j) (set_registers s (<[j := u8 v]> (registers s))))
      as (r & Hrun & Hlen & Hpt);
      cbn [set_registers registers memory index] in *; rewrite ?length_insert; try lia.
    exists r. split; [exact Hrun|]. split; [done|].
    intros a. rewrite Hpt.
    destruct (decide (a = j)) as [->|Hne].
    + rewrite decide_False by lia. rewrite decide_True by lia.
      rewrite list_lookup_insert_eq by lia. by rewrite Hv.
    + rewrite list_lookup_insert_ne by lia.
      repeat case_decide; done || lia.
Qed.

Lemma range_split (n k : nat) :
  (k < n)%nat ->
  map Z.of_nat (seq 0 n) =
  map Z.of_nat (seq 0 k) ++ Z.of_nat k :: map Z.of_nat (seq (S k) (n - S k)).
Proof.
  intros Hk. replace n with (k + S (n - S k))%nat at 1 by lia.
  rewrite seq_app, map_app. done.
Qed.

Lemma range_succ (x : Z) : 0 <= x -> range (x + 1) = map Z.of_nat (seq 0 (S (Z.to_nat x))).
Proof. intros Hx. unfold range. by replace (Z.to_nat (x + 1)) with (S (Z.to_nat x)) by lia. Qed.

(** X12: [Fx55] stores [V0 .. Vx] at [memory[index .. index + x]] and changes
    nothing else when [index + x < 4096]; otherwise its loop goes on to
    write [memory[max index 4096]], past the end of memory. *)
Theorem OP_Fx55_store (s : chip8) :
  wf s ->
  (index s + op_x (opcode s) < 4096 ->
   exists m, OP_Fx55 s = Ok (set_memory s m) /\
     forall a : nat, m !! a =
       if decide (Z.to_nat (index s) <= a <= Z.to_nat (index s + op_x (opcode s)))%nat
       then registers s !! (a - Z.to_nat (index s))%nat else memory s !! a) /\
  (4096 <= index s + op_x (opcode s) ->
   OP_Fx55 s = OutOfBounds MemoryA (Z.max (index s) 4096)).
Proof.
  intros Hwf. destruct Hwf as (Hr & Hm & _ & _ & _ & _ & _ & _ & Hi & _).
  pose proof (op_x_range (opcode s)) as Hx.
  unfold OP_Fx55. fold (op_x (opcode s)). rewrite range_succ by lia. split.
  - intros Hin.
    destruct (store_loop 0 (S (Z.to_nat (op_x (opcode s)))) s) as (m & Hrun & _ & Hpt);
      [done | done | lia | lia | lia |].
    exists m. split; [exact Hrun|]. intros a. rewrite Hpt.
    repeat case_decide; done || lia.
  - intros Hout. set (k := (4096 - Z.to_nat (index s))%nat).
    assert (Hk : (k <= 15)%nat /\ Z.of_nat k = Z.max (index s) 4096 - index s)
      by (subst k; lia). clearbody k.
    rewrite (range_split _ k) by lia. rewrite forM_app.
    destruct (store_loop 0 k s) as (m & Hrun & Hlen & _); [done | done | lia | lia | lia |].
    rewrite Hrun. cbn [obind forM].
    destruct (lookup_lt_is_Some_2 (registers s) k) as [v Hv]; [lia|].
    rewrite (rd_lookup _ _ _ v) by (rewrite ?Nat2Z.id; done || lia). cbn [obind].
    cbn [memory index set_memory]. rewrite wr_out by lia. cbn [obind]. f_equal. lia.
Qed.

Lemma OP_Fx55_store_witness :
  (exists m, OP_Fx55 s_F255 = Ok (set_memory s_F255 m) /\
     forall a : nat, m !! a =
       if decide (Z.to_nat (index s_F255) <= a <= Z.to_nat (index s_F255 + op_x (opcode s_F255)))%nat
       then registers s_F255 !! (a - Z.to_nat (index s_F255))%nat else memory s_F255 !! a) /\
  OP_Fx55 s_FF55_top = OutOfBounds MemoryA (Z.max (index s_FF55_top) 4096).
Proof.
  split.
  - apply (proj1 (OP_Fx55_store s_F255 ltac:(wf_concrete))).
    apply Z.ltb_lt. vm_compute. reflexivity.
  - apply (proj2 (OP_Fx55_store s_FF55_top ltac:(wf_concrete))).
    apply Z.leb_le. vm_compute. reflexivity.
Defined.

(** X13: [Fx65] loads [V0 .. Vx] from [memory[index .. index + x]] and changes
    nothing else when [index + x < 4096]; otherwise its loop goes on to
    read [memory[max index 4096]], past the end of memory. *)
Theorem OP_Fx65_load (s : chip8) :
  wf s ->
  (index s + op_x (opcode s) < 4096 ->
   exists r, OP_Fx65 s = Ok (set_registers s r) /\
     forall a : nat, r !! a =
       if decide (a <= Z.to_nat (op_x (opcode s)))%nat
       then memory s !! (Z.to_nat (index s) + a)%nat else registers s !! a) /\
  (4096 <= index s + op_x (opcode s) ->
   OP_Fx65 s = OutOfBounds MemoryA (Z.max (index s) 4096)).
Proof.
  intros Hwf. destruct Hwf as (Hr & Hm & _ & _ & _ & _ & Hmu & _ & Hi & _).
  pose proof (op_x_range (opcode s)) as Hx.
  unfold OP_Fx65. fold (op_x (opcode s)). rewrite range_succ by lia. split.
  - intros Hin.
    destruct (fetch_loop 0 (S (Z.to_nat (op_x (opcode s)))) s) as (r & Hrun & _ & Hpt);
      [done | done | lia | lia | lia |].
    exists r. split; [exact Hrun|]. intros a. rewrite Hpt.
    case_decide; case_decide; try lia; [|done].
    destruct (memory s !! (Z.to_nat (index s) + a)%nat) as [b|] eqn:Hb; [|done].
    cbn. rewrite u8_small; [done|]. exact (Forall_lookup_1 _ _ _ _ Hmu Hb).
  - intros Hout. set (k := (4096 - Z.to_nat (index s))%nat).
    assert (Hk : (k <= 15)%nat /\ Z.of_nat k = Z.max (index s) 4096 - index s)
      by (subst k; lia). clearbody k.
    rewrite (range_split _ k) by lia. rewrite forM_app.
    destruct (fetch_loop 0 k s) as (r & Hrun & Hlen & _); [done | done | lia | lia | lia |].
    rewrite Hrun. cbn [obind forM].
    cbn [memory index set_registers]. rewrite rd_out by lia. cbn [obind]. f_equal. lia.
Qed.

Lemma OP_Fx65_load_witness :
  (exists r, OP_Fx65 s_F265 = Ok (set_registers s_F265 r) /\
     forall a : nat, r !! a =
       if decide (a <= Z.to_nat (op_x (opcode s_F265)))%nat
       then memory s_F265 !! (Z.to_nat (index s_F265) + a)%nat else registers s_F265 !! a) /\
  OP_Fx65 s_FF65_top = OutOfBounds MemoryA (Z.max (index s_FF65_top) 4096).
Proof.
  split.
  - apply (proj1 (OP_Fx65_load s_F265 ltac:(wf_concrete))).
    apply Z.ltb_lt. vm_compute. reflexivity.
  - apply (proj2 (OP_Fx65_load s_FF65_top ltac:(wf_concrete))).
    apply Z.leb_le. vm_compute. reflexivity.
Defined.

(** X14: [Fx65] right after [Fx55] with the same [x] and [index] (and
    [index + x < 4096]) reloads exactly the values just stored: it leaves
    the state unchanged. *)
Theorem Fx55_then_Fx65 (s : chip8) :
  wf s -> index s + op_x (opcode s) < 4096 ->
  exists s1, OP_Fx55 s = Ok s1 /\ OP_Fx65 s1 = Ok s1.
Proof.
  intros Hwf Hin. pose proof Hwf as (Hr & Hm & _ & _ & _ & Hru & _ & _ & Hi & _).
  pose proof (op_x_range (opcode s)) as Hx.
  unfold OP_Fx55. fold (op_x (opcode s)). rewrite range_succ by lia.
  destruct (store_loop 0 (S (Z.to_nat (op_x (opcode s)))) s) as (m & Hrun & Hlen & Hpt);
    [done | done | lia | lia | lia |].
  rewrite Hrun. eexists. split; [reflexivity|].
  unfold OP_Fx65. cbn [opcode set_memory]. fold (op_x (opcode s)). rewrite range_succ by lia.
  destruct (fetch_loop 0 (S (Z.to_nat (op_x (opcode s)))) (set_memory s m))
    as (r & Hrun' & _ & Hpt'); cbn [set_memory registers memory index]; try lia.
  rewrite Hrun'. f_equal.
  replace r with (registers (set_memory s m)); [apply set_registers_registers|].
  apply list_eq. intros a. rewrite Hpt'. cbn [set_memory registers memory index].
  case_decide; [|done]. rewrite Hpt. rewrite decide_True by lia.
  replace (Z.to_nat (index s) + a - Z.to_nat (index s))%nat with a by lia.
  destruct (registers s !! a) as [v|] eqn:Hv; [|done]. cbn.
  rewrite u8_small; [done|]. exact (Forall_lookup_1 _ _ _ _ Hru Hv).
Qed.

Lemma Fx55_then_Fx65_witness :
  exists s1, OP_Fx55 s_F255 = Ok s1 /\ OP_Fx65 s1 = Ok s1.
Proof. apply Fx55_then_Fx65; [wf_concrete | apply Z.ltb_lt; vm_compute; reflexivity]. Defined.

(** X15: the constructor never fails. It leaves [pc = 0x200], the 80 font
    bytes at [0x50 .. 0x9F] and every other byte of memory, register, stack
    entry, key and pixel, [index], [sp] and both timers 0; the result is
    well formed. *)
Theorem Chip8_init_state : Chip8_init = Ok s_init /\ wf s_init.
Proof. split; [vm_compute; reflexivity | wf_concrete]. Qed.

Lemma init_font (s0 : chip8) :
  Chip8_init = Ok s0 ->
  forall i, 0 <= i < 80 -> memory s0 !! Z.to_nat (FONTSET_START_ADDRESS + i) = fontset !! Z.to_nat i.
Proof.
  intros H0. vm_compute in H0. injection H0 as <-. intros i Hi.
  assert (Hall : forallb (fun i =>
      bool_decide (memory (set_memory (set_pc zeroed START_ADDRESS)
                     (repeat 0 0x50 ++ fontset ++ repeat 0 (4096 - 0xA0)))
                   !! Z.to_nat (FONTSET_START_ADDRESS + i) = fontset !! Z.to_nat i)) (range 80) = true)
    by (vm_compute; reflexivity).
  rewrite forallb_forall in Hall. specialize (Hall i ltac:(apply In_range; lia)).
  apply bool_decide_eq_true in Hall. exact Hall.
Qed.

(** X16: [Fx29] points [index] at [0x50 + 5 * Vx] and changes nothing else.
    When [Vx] is a digit below 16 and the font area [0x50 .. 0x9F] still
    holds what the constructor put there, the five bytes at [index] are the
    glyph of that digit in [fontset]. *)
Theorem OP_Fx29_glyph (s s0 : chip8) (d : Z) :
  wf s ->
  registers s !! Z.to_nat (op_x (opcode s)) = Some d ->
  Chip8_init = Ok s0 ->
  (forall a : nat, (0x50 <= a < 0xA0)%nat -> memory s !! a = memory s0 !! a) ->
  OP_Fx29 s = Ok (set_index s (0x50 + 5 * d)) /\
  (d < 16 -> forall j, 0 <= j < 5 ->
     memory s !! Z.to_nat (0x50 + 5 * d + j) = fontset !! Z.to_nat (5 * d + j)).
Proof.
  intros Hwf Hd H0 Hfont. pose proof (init_font s0 H0) as Hf. clear H0.
  pose proof (wf_reg_u8 _ _ _ Hwf Hd).
  pose proof (op_x_range (opcode s)).
  unfold OP_Fx29. fold (op_x (opcode s)).
  rewrite (rd_lookup _ _ _ d) by first [exact Hd | lia]. cbn [obind]. split.
  - unfold u16, FONTSET_START_ADDRESS. rewrite Z.mod_small by lia. reflexivity.
  - intros Hd16 j Hj. rewrite Hfont by lia.
    rewrite <- (Hf (5 * d + j)) by lia.
    unfold FONTSET_START_ADDRESS. f_equal. lia.
Qed.

Lemma OP_Fx29_glyph_witness :
  OP_Fx29 s_F129 = Ok (set_index s_F129 (0x50 + 5 * 7)) /\
  (7 < 16 -> forall j, 0 <= j < 5 ->
     memory s_F129 !! Z.to_nat (0x50 + 5 * 7 + j) = fontset !! Z.to_nat (5 * 7 + j)).
Proof.
  apply (OP_Fx29_glyph s_F129 s_init 7).
  - wf_concrete.
  - vm_compute. reflexivity.
  - vm_compute. reflexivity.
  - intros a _. assert (E : memory s_F129 = memory s_init) by (vm_compute; reflexivity).
    rewrite E. reflexivity.
Defined.

Lemma set_video_wf (s : chip8) (v : list Z) :
  wf s -> length v = 2048%nat -> wf (set_video s v).
Proof. destruct s. unfold wf. cbn. intuition. Qed.

(** The effect of a successful draw: the cells of the sprite's lit bits,
    row by row, are flipped, and [VF] is 1 iff one of them was on. *)
Lemma Dxyn_effect (s s' : chip8) :
  wf s -> OP_Dxyn s = Ok s' ->
  exists rx ry v,
    registers s !! Z.to_nat (op_x (opcode s)) = Some rx /\
    registers s !! Z.to_nat (op_y (opcode s)) = Some ry /\
    let L := draw_cells (memory s) (index s) (rx mod VIDEO_WIDTH) (ry mod VIDEO_HEIGHT)
                        (range (Z.land (opcode s) 0x000F)) in
    s' = set_video (set_registers s
           (<[15%nat := if decide (Exists (fun k => video s !! Z.to_nat k = Some 0xFFFFFFFF) L)
                        then 1 else 0]> (registers s))) v /\
    length v = length (video s) /\
    forall n : nat, v !! n =
      if in_dec Z.eq_dec (Z.of_nat n) L
      then (fun p => Z.lxor p 0xFFFFFFFF) <$> video s !! n
      else video s !! n.
Proof.
  intros Hwf Hrun. destruct Hwf as (Hr & Hm & _ & _ & Hv & _).
  pose proof (op_x_range (opcode s)) as Hx. pose proof (op_y_range (opcode s)) as Hy.
  destruct (rd_in RegistersA (registers s) (op_x (opcode s))) as (rx & Hrx & _); [lia|].
  destruct (rd_in RegistersA (registers s) (op_y (opcode s))) as (ry & Hry & _); [lia|].
  exists rx, ry. rewrite (OP_Dxyn_unfold s rx ry Hr Hrx Hry) in Hrun.
  assert (Hb : Forall (fun row => 0 <= index s + row < Z.of_nat (length (memory s)))
                      (range (Z.land (opcode s) 0x000F)))
    by exact (draw_rows_bounds _ _ _ _ _ Hrun).
  rewrite draw_rows_eq in Hrun by exact Hb.
  change (forM (draw_cells (memory s) (index s) (rx mod VIDEO_WIDTH) (ry mod VIDEO_HEIGHT)
                           (range (Z.land (opcode s) 0x000F))) toggle_pixel
               (set_registers s (<[15%nat:=0]> (registers s))) = Ok s') in Hrun.
  remember (draw_cells (memory s) (index s) (rx mod VIDEO_WIDTH) (ry mod VIDEO_HEIGHT)
                       (range (Z.land (opcode s) 0x000F))) as L eqn:HL.
  assert (HbL : Forall (fun k => 0 <= k < Z.of_nat (length (video s))) L)
    by exact (toggles_bounds _ _ _ Hrun).
  assert (Hnd : List.NoDup L).
  { subst L. apply NoDup_draw_cells; [unfold VIDEO_WIDTH; apply Z.mod_pos_bound; lia|].
    apply NoDup_range. }
  destruct (toggles_spec L (set_registers s (<[15%nat:=0]> (registers s))) Hnd HbL)
    as (v & Hrun' & Hlen & Hpt);
    [by rewrite registers_set_registers, length_insert|].
  autorewrite with chip8_proj in Hrun', Hlen, Hpt.
  rewrite Hrun in Hrun'. injection Hrun' as ->.
  exists v. split; [done|]. split; [done|]. split; [|split; [done | exact Hpt]].
  rewrite set_registers_twice. case_decide; [by rewrite list_insert_insert_eq | reflexivity].
Qed.

(** X17: a successful draw changes only [video] and [VF]. It flips the cells of
    the sprite's lit bits ([(yPos + row) * 64 + xPos + col], row by row,
    with [xPos = Vx mod 64], [yPos = Vy mod 32]); [VF] becomes 1 iff one of
    those cells held [0xFFFFFFFF] before, and 0 otherwise. *)
Theorem OP_Dxyn_collision (s s' : chip8) :
  wf s -> OP_Dxyn s = Ok s' ->
  exists rx ry v,
    registers s !! Z.to_nat (op_x (opcode s)) = Some rx /\
    registers s !! Z.to_nat (op_y (opcode s)) = Some ry /\
    let L := draw_cells (memory s) (index s) (rx mod VIDEO_WIDTH) (ry mod VIDEO_HEIGHT)
                        (range (Z.land (opcode s) 0x000F)) in
    s' = set_video (set_registers s
           (<[15%nat := if decide (Exists (fun k => video s !! Z.to_nat k = Some 0xFFFFFFFF) L)
                        then 1 else 0]> (registers s))) v /\
    length v = length (video s) /\
    forall n : nat, v !! n =
      if in_dec Z.eq_dec (Z.of_nat n) L
      then (fun p => Z.lxor p 0xFFFFFFFF) <$> video s !! n
      else video s !! n.
Proof. apply Dxyn_effect. Qed.

(** X18: pixels only ever hold 0 or [0xFFFFFFFF]: [00E0] sets every pixel to
    0, and a successful draw keeps every pixel in [{0, 0xFFFFFFFF}] if it
    was before. *)
Theorem pixels_on_off (s s' : chip8) :
  (OP_00E0 s = Ok s' -> Forall (fun p => p = 0) (video s') /\ length (video s') = length (video s)) /\
  (wf s -> Forall (fun p => p = 0 \/ p = 0xFFFFFFFF) (video s) -> OP_Dxyn s = Ok s' ->
   Forall (fun p => p = 0 \/ p = 0xFFFFFFFF) (video s')).
Proof.
  split.
  - unfold OP_00E0. intros H. injection H as <-. cbn. rewrite repeat_length.
    split; [|done]. apply Forall_forall. intros p Hp. by apply repeat_spec in Hp.
  - intros Hwf Hpix Hrun. destruct (Dxyn_effect s s' Hwf Hrun) as (rx & ry & v & _ & _ & -> & _ & Hpt).
    cbn. apply Forall_lookup. intros n p Hp. rewrite Hpt in Hp.
    destruct (in_dec _ _ _).
    + destruct (video s !! n) as [q|] eqn:Hq; [|discriminate]. cbn in Hp. injection Hp as <-.
      pose proof (Forall_lookup_1 _ _ _ _ Hpix Hq) as [-> | ->]; [right | left]; reflexivity.
    + exact (Forall_lookup_1 _ _ _ _ Hpix Hp).
Qed.

Lemma pixels_on_off_witness :
  exists s1 s2, OP_00E0 s_D015_font = Ok s1 /\ Forall (fun p => p = 0) (video s1) /\
    OP_Dxyn s_D015_font = Ok s2 /\ Forall (fun p => p = 0 \/ p = 0xFFFFFFFF) (video s2).
Proof.
  destruct (OP_Dxyn s_D015_font) as [s2|arr i] eqn:E2; [|vm_compute in E2; discriminate].
  exists (set_video s_D015_font (repeat 0 (length (video s_D015_font)))), s2.
  split; [reflexivity|]. split.
  - exact (proj1 (proj1 (pixels_on_off s_D015_font _) eq_refl)).
  - split; [reflexivity|].
    apply (proj2 (pixels_on_off s_D015_font s2)); [wf_concrete | wf_concrete | exact E2].
Defined.

Lemma OP_Dxyn_collision_witness :
  exists s', OP_Dxyn s_D015_font = Ok s' /\
  exists rx ry v,
    registers s_D015_font !! Z.to_nat (op_x (opcode s_D015_font)) = Some rx /\
    registers s_D015_font !! Z.to_nat (op_y (opcode s_D015_font)) = Some ry /\
    let L := draw_cells (memory s_D015_font) (index s_D015_font) (rx mod VIDEO_WIDTH)
               (ry mod VIDEO_HEIGHT) (range (Z.land (opcode s_D015_font) 0x000F)) in
    s' = set_video (set_registers s_D015_font
           (<[15%nat := if decide (Exists (fun k => video s_D015_font !! Z.to_nat k = Some 0xFFFFFFFF) L)
                        then 1 else 0]> (registers s_D015_font))) v /\
    length v = length (video s_D015_font) /\
    forall n : nat, v !! n =
      if in_dec Z.eq_dec (Z.of_nat n) L
      then (fun p => Z.lxor p 0xFFFFFFFF) <$> video s_D015_font !! n
      else video s_D015_font !! n.
Proof.
  destruct (OP_Dxyn s_D015_font) as [s'|arr i] eqn:E; [|vm_compute in E; discriminate].
  exists s'. split; [reflexivity|].
  exact (OP_Dxyn_collision s_D015_font s' ltac:(wf_concrete) E).
Defined.

(** X19: right after [00E0] clears the screen, a successful draw reports no
    collision: [VF] is 0. *)
Theorem clear_then_draw (s s1 s2 : chip8) :
  wf s -> OP_00E0 s = Ok s1 -> OP_Dxyn s1 = Ok s2 -> registers s2 !! 15%nat = Some 0.
Proof.
  intros Hwf H1 H2. unfold OP_00E0 in H1. injection H1 as <-.
  assert (Hwf1 : wf (set_video s (repeat 0 (length (video s))))).
  { apply set_video_wf; [done|]. rewrite repeat_length. apply Hwf. }
  destruct (Dxyn_effect _ _ Hwf1 H2) as (rx & ry & v & _ & _ & -> & _).
  cbn. rewrite decide_False.
  - rewrite list_lookup_insert_eq; [done|]. destruct Hwf as (Hr & _). lia.
  - intros HE. apply List.Exists_exists in HE as (k & _ & Hk).
    apply list_elem_of_lookup_2, list_elem_of_In, repeat_spec in Hk. discriminate.
Qed.

Lemma clear_then_draw_witness :
  exists s1 s2, OP_00E0 s_D015_font = Ok s1 /\ OP_Dxyn s1 = Ok s2 /\
    registers s2 !! 15%nat = Some 0.
Proof.
  destruct (OP_Dxyn (set_video s_D015_font (repeat 0 (length (video s_D015_font)))))
    as [s2|arr i] eqn:E2; [|vm_compute in E2; discriminate].
  exists (set_video s_D015_font (repeat 0 (length (video s_D015_font)))), s2.
  split; [reflexivity|]. split; [exact E2|].
  exact (clear_then_draw s_D015_font _ s2 ltac:(wf_concrete) eq_refl E2).
Defined.

Lemma nnn_range (op : Z) : 0 <= Z.land op 0x0FFF < 4096.
Proof.
  change 0x0FFF with (Z.ones 12). rewrite Z.land_ones by lia.
  apply Z.mod_pos_bound. lia.
Qed.

(** X20: [Bnnn] jumps to [V0 + nnn] with no 16-bit wrap: the target can reach
    [255 + 0xFFF = 4350], past the last memory address 4095. [FX1E] adds
    [Vx] to [index] modulo [2^16] and leaves every register, [VF]
    included, unchanged. *)
Theorem OP_Bnnn_FX1E (s : chip8) (r v : Z) :
  wf s -> registers s !! 0%nat = Some r ->
  registers s !! Z.to_nat (op_x (opcode s)) = Some v ->
  OP_Bnnn s = Ok (set_pc s (r + Z.land (opcode s) 0x0FFF)) /\
  r + Z.land (opcode s) 0x0FFF <= 4350 /\
  OP_FX1E s = Ok (set_index s ((index s + v) mod 65536)).
Proof.
  intros Hwf Hr Hv. pose proof (wf_reg_u8 _ _ _ Hwf Hr). pose proof (wf_reg_u8 _ _ _ Hwf Hv).
  pose proof (op_x_range (opcode s)). pose proof (nnn_range (opcode s)).
  split; [|split; [lia|]].
  - unfold OP_Bnnn. rewrite (rd_lookup _ _ _ r) by first [exact Hr | lia]. cbn [obind].
    unfold u16. rewrite Z.mod_small by lia. reflexivity.
  - unfold OP_FX1E. fold (op_x (opcode s)).
    rewrite (rd_lookup _ _ _ v) by first [exact Hv | lia]. reflexivity.
Qed.

Lemma OP_Bnnn_FX1E_witness :
  OP_Bnnn s_B1FF = Ok (set_pc s_B1FF (0xFF + Z.land (opcode s_B1FF) 0x0FFF)) /\
  0xFF + Z.land (opcode s_B1FF) 0x0FFF <= 4350 /\
  OP_FX1E s_B1FF = Ok (set_index s_B1FF ((index s_B1FF + 0x20) mod 65536)).
Proof.
  apply (OP_Bnnn_FX1E s_B1FF 0xFF 0x20);
    [wf_concrete | vm_compute; reflexivity | vm_compute; reflexivity].
Defined.

Lemma Fx33_digits (s : chip8) (v : Z) :
  wf s -> index s + 2 < 4096 ->
  registers s !! Z.to_nat (op_x (opcode s)) = Some v ->
  exists m, OP_Fx33 s = Ok (set_memory s m) /\ length m = 4096%nat /\
    m !! Z.to_nat (index s) = Some (v / 100) /\
    m !! (Z.to_nat (index s) + 1)%nat = Some (v / 10 mod 10) /\
    m !! (Z.to_nat (index s) + 2)%nat = Some (v mod 10).
Proof.
  intros Hwf Hi Hv. pose proof (wf_reg_u8 _ _ _ Hwf Hv).
  destruct Hwf as (_ & Hm & _ & _ & _ & _ & _ & _ & Hix & _).
  pose proof (op_x_range (opcode s)).
  unfold OP_Fx33. fold (op_x (opcode s)).
  rewrite (rd_lookup _ _ _ v) by first [exact Hv | lia]. cbn [obind].
  rewrite wr_insert by lia. cbn [obind].
  rewrite wr_insert by (rewrite length_insert; lia). cbn [obind].
  rewrite wr_insert by (rewrite !length_insert; lia). cbn [obind].
  eexists. split; [reflexivity|]. split; [rewrite !length_insert; exact Hm|].
  rewrite Z.div_div by lia. change (10 * 10) with 100.
  rewrite (Z.mod_small (v / 100)) by (split; [apply Z.div_pos | apply Z.div_lt_upper_bound]; lia).
  replace (Z.to_nat (index s + 1)) with (Z.to_nat (index s) + 1)%nat by lia.
  replace (Z.to_nat (index s + 2)) with (Z.to_nat (index s) + 2)%nat by lia.
  split; [|split].
  - rewrite list_lookup_insert_eq by (rewrite !length_insert; lia). reflexivity.
  - rewrite list_lookup_insert_ne by lia.
    rewrite list_lookup_insert_eq by (rewrite !length_insert; lia). reflexivity.
  - rewrite !list_lookup_insert_ne by lia.
    rewrite list_lookup_insert_eq by lia. reflexivity.
Qed.

(** X21: [Fx33] followed by [F265] (load [V0 .. V2] from [index]) round-trips
    the decimal digits: with [index + 2 < 4096], [V0], [V1] and [V2] end up
    holding the hundreds, tens and ones digit of the old [Vx], and
    registers [V3 .. VF] are those from before [Fx33]. *)
Theorem Fx33_then_Fx65 (s : chip8) (v : Z) :
  wf s -> index s + 2 < 4096 ->
  registers s !! Z.to_nat (op_x (opcode s)) = Some v ->
  exists s1 s2, OP_Fx33 s = Ok s1 /\ OP_Fx65 (set_opcode s1 0xF265) = Ok s2 /\
    registers s2 !! 0%nat = Some (v / 100) /\
    registers s2 !! 1%nat = Some (v / 10 mod 10) /\
    registers s2 !! 2%nat = Some (v mod 10) /\
    forall a : nat, (3 <= a)%nat -> registers s2 !! a = registers s !! a.
Proof.
  intros Hwf Hi Hv. pose proof (wf_reg_u8 _ _ _ Hwf Hv).
  destruct (Fx33_digits s v Hwf Hi Hv) as (m & Hrun & Hlen & H0 & H1 & H2).
  destruct Hwf as (Hr & _ & _ & _ & _ & _ & _ & _ & Hix & _).
  rewrite Hrun. exists (set_memory s m). unfold OP_Fx65.
  replace (range (Z.shiftr (Z.land (opcode (set_opcode (set_memory s m) 0xF265)) 0x0F00) 8 + 1))
    with (map Z.of_nat (seq 0 3)) by reflexivity.
  destruct (fetch_loop 0 3 (set_opcode (set_memory s m) 0xF265)) as (r & Hrun' & _ & Hpt);
    [cbn [set_opcode set_memory registers memory index]; lia .. |].
  rewrite Hrun'. eexists. split; [reflexivity|]. split; [reflexivity|].
  cbn [set_registers registers]. cbn [set_opcode set_memory registers memory index] in Hpt.
  rewrite !Hpt. rewrite !decide_True by lia. rewrite Nat.add_0_r, H0, H1, H2. cbn [fmap option_fmap option_map].
  unfold u8. split; [|split; [|split]]; try (f_equal; apply Z.mod_small; Z.div_mod_to_equations; lia).
  intros a Ha. rewrite Hpt. rewrite decide_False by lia. reflexivity.
Qed.

Lemma Fx33_then_Fx65_witness :
  exists s1 s2, OP_Fx33 s_F033 = Ok s1 /\ OP_Fx65 (set_opcode s1 0xF265) = Ok s2 /\
    registers s2 !! 0%nat = Some (255 / 100) /\
    registers s2 !! 1%nat = Some (255 / 10 mod 10) /\
    registers s2 !! 2%nat = Some (255 mod 10) /\
    forall a : nat, (3 <= a)%nat -> registers s2 !! a = registers s_F033 !! a.
Proof.
  apply (Fx33_then_Fx65 s_F033 255);
    [wf_concrete | apply Z.ltb_lt; vm_compute; reflexivity | vm_compute; reflexivity].
Defined.

Lemma init_mem_len (s0 : chip8) : Chip8_init = Ok s0 -> length (memory s0) = 4096%nat.
Proof. intros H0. vm_compute in H0. injection H0 as <-. reflexivity. Qed.

(** X22: loading a ROM into the freshly constructed machine never overwrites
    the font: when the image fits ([size <= 4096 - 0x200]), the 80 bytes at
    [0x50 .. 0x9F] still hold [fontset] afterwards. *)
Theorem LoadROM_keeps_font (s0 s : chip8) (buffer : list Z) :
  Chip8_init = Ok s0 -> (length buffer <= 4096 - 512)%nat ->
  LoadROM (Some buffer) s0 = Ok s ->
  forall i, 0 <= i < 80 ->
    memory s !! Z.to_nat (FONTSET_START_ADDRESS + i) = fontset !! Z.to_nat i.
Proof.
  intros H0 Hlen Hrun i Hi. pose proof (init_font s0 H0 i Hi) as Hf.
  pose proof (init_mem_len s0 H0) as Hm. clear H0.
  unfold LoadROM, range in Hrun. rewrite Nat2Z.id in Hrun.
  destruct (load_loop buffer 0 (length buffer) s0) as (m & Hrun' & _ & Hpt);
    [exact Hm | lia | lia |].
  rewrite Hrun' in Hrun. injection Hrun as <-. cbn [set_memory memory].
  rewrite Hpt. rewrite decide_False by (unfold FONTSET_START_ADDRESS; lia). exact Hf.
Qed.

Lemma LoadROM_keeps_font_witness :
  exists s, LoadROM (Some [0xA2; 0x2A; 0x60; 0x0C]) s_init = Ok s /\
    forall i, 0 <= i < 80 ->
      memory s !! Z.to_nat (FONTSET_START_ADDRESS + i) = fontset !! Z.to_nat i.
Proof.
  destruct (LoadROM (Some [0xA2; 0x2A; 0x60; 0x0C]) s_init) as [s|arr i] eqn:E;
    [|vm_compute in E; discriminate].
  exists s. split; [reflexivity|].
  apply (LoadROM_keeps_font s_init s [0xA2; 0x2A; 0x60; 0x0C]);
    [vm_compute; reflexivity | apply Nat.leb_le; vm_compute; reflexivity | exact E].
Defined.
